(** * FinancialGuru: the calculation engine of [advanced_finance_guru.py]

    A shallow embedding of the deterministic part of class [FinancialGuru]
    (risk profile, SIP / SWP / EMI sizing, slab tax, saving suggestions and
    goal planning) together with the properties its specification states.

    Modelling conventions.
    - Counts of years are Python [int]s, here [Z].  Amounts and rates reach
      the methods as [int] or [float]; both are modelled by the exact
      rational they denote ([Q]), and the literals [0.05], [0.2], [0.3] are
      [5/100], [2/10], [3/10].  The special values the code meets
      ([float('inf')] in the slab table, [NaN] and infinities produced by
      pandas) are explicit constructors.
    - Where Python's arithmetic raises, the model raises: a division by
      zero, zero to a negative power, an [int] too large for binary64 that
      meets a [float], and a power whose value leaves the range of
      binary64.  A number that large can only be an [int], since no
      [float] holds it.
    - Of the rounding of binary64 one case is modelled, because it changes
      what the formulas do: a sum [1 + x] is [1.0] when [x] is too small
      to move it ([py_add_one]), and the annuity factor then vanishes.
      Everywhere else the value of a float expression is the exact
      rational, which the code's float approximates.  The theorems about
      values are stated for inputs of ordinary size ([moderate],
      [ordinary_amount], [ordinary_rate], [ordinary_years]): there every
      whole number is a float (it is below [2^53], beyond which an [int]
      and the float nearest to it part), nothing is absorbed or leaves the
      range, and what a theorem says of a result holds of the code's float
      up to its rounding.
    - A Python exception is a value of [exn]; code that may raise lives in
      the error monad [result], and the methods, which also write to the
      Streamlit page through [st.error], live in [M], a state-and-error
      monad over the list of reported diagnostics.
    - Results that are rationals are compared with [==] ([Qeq]). *)

From Stdlib Require Import QArith Qminmax Qpower Qround Qabs Lqa ZArith Lia List String.
From stdpp Require Import gmap strings.
Import ListNotations.

Local Open Scope Q_scope.

(** ** Exceptions and the two monads *)

Inductive exn : Type :=
  | ZeroDivisionError
  | ValueError
  | AttributeError
  | KeyError
  | OverflowError.

Inductive result (A : Type) : Type :=
  | Ok (a : A)
  | Raise (e : exn).
Arguments Ok {A} a.
Arguments Raise {A} e.

#[global] Instance result_ret : MRet result := @Ok.
#[global] Instance result_bind : MBind result :=
  fun A B (f : A -> result B) (m : result A) =>
    match m with
    | Ok a => f a
    | Raise e => Raise e
    end.

(** [st.error(f"<source>: {str(e)}")]: the page keeps the source label and
    the exception that was formatted into the message. *)
Record diag : Type := Diag { diag_source : string; diag_exn : exn }.

(** What Streamlit has been asked to display so far, oldest first. *)
Definition page : Type := list diag.

(** A method body: it may raise, and what it wrote to the page stays
    written when it does. *)
Definition M (A : Type) : Type := page -> result A * page.

#[global] Instance M_ret : MRet M := fun A (a : A) (s : page) => (Ok a, s).
#[global] Instance M_bind : MBind M :=
  fun A B (f : A -> M B) (m : M A) (s : page) =>
    match m s with
    | (Ok a, s') => f a s'
    | (Raise e, s') => (Raise e, s')
    end.

(** Pure code that may raise, run inside a method. *)
Definition lift {A : Type} (r : result A) : M A := fun s => (r, s).

(** [try: body  except Exception as e: handler e]. *)
Definition try_except {A : Type} (body : M A) (handler : exn -> M A) : M A :=
  fun s =>
    match body s with
    | (Ok a, s') => (Ok a, s')
    | (Raise e, s') => handler e s'
    end.

Definition st_error (source : string) (e : exn) : M unit :=
  fun s => (Ok tt, s ++ [Diag source e]).

(** The value a method returns, started on an empty page. *)
Definition value_of {A : Type} (m : M A) : result A := fst (m []).

(** The method returns [v] from every page: no exception leaves it. *)
Definition returns {A : Type} (m : M A) (v : A) : Prop :=
  forall s : page, fst (m s) = Ok v.

(** ** Python arithmetic on exact numbers *)

(** The first magnitude that binary64 has no number for: rounded to the
    nearest float, a value of at least [2^1024 - 2^970] overflows. *)
Definition float_limit : Q := inject_Z (2 ^ 1024 - 2 ^ 970).

Definition float_overflows (x : Q) : bool := Qle_bool float_limit (Qabs x).

(** The conversion an [int] operand undergoes when the other operand is a
    [float]: an [int] beyond the range of binary64 cannot be converted.
    A [float] operand is within the range and is left as it is. *)
Definition to_float (x : Q) : result Q :=
  if float_overflows x then Raise OverflowError else Ok x.

(** [a / b] between floats *)
Definition py_truediv (a b : Q) : result Q :=
  if Qeq_bool b 0 then Raise ZeroDivisionError else Ok (a / b).

(** [a / b] for an [int] literal [b], as in [rate / 1200]: when [a] is an
    [int] as well, the quotient has to fit binary64. *)
Definition py_truediv_int (a b : Q) : result Q :=
  if Qeq_bool b 0 then Raise ZeroDivisionError
  else if float_overflows (a / b) then Raise OverflowError
  else Ok (a / b).

(** [1 + x] for a float [x].  The sum is [1.0] when [x] is at most half
    the distance from 1 to the next float on its side, [2^-53] above and
    [2^-54] below; a larger [x] is added exactly. *)
Definition py_add_one (x : Q) : Q :=
  if Qle_bool (- (1 # 2 ^ 54)) x && Qle_bool x (1 # 2 ^ 53) then 1 else 1 + x.

(** [a * x] for a float [x]. *)
Definition py_mul_float (a x : Q) : result Q :=
  a ← to_float a;
  Ok (a * x).

(** [x ** n] for a float [x] and an [int] [n]: the exponent is converted
    first, zero to a negative power raises [ZeroDivisionError], and a
    result beyond the range of binary64 raises [OverflowError] (a result
    too small for it is no error). *)
Definition py_pow (x : Q) (n : Z) : result Q :=
  if float_overflows (inject_Z n) then Raise OverflowError
  else if (n <? 0)%Z && Qeq_bool x 0 then Raise ZeroDivisionError
  else if float_overflows (x ^ n) then Raise OverflowError
  else Ok (x ^ n).

(** [max(a, b)] and [min(a, b)] keep the first argument on a tie. *)
Definition py_max (a b : Q) : Q := if Qlt_le_dec a b then b else a.
Definition py_min (a b : Q) : Q := if Qlt_le_dec b a then b else a.

(** ** AnnuityMath: [calculate_sip], [calculate_swp], [calculate_emi] *)

(** The operands of the quotient are evaluated from left to right: the
    product first, then the power. *)
Definition sip_formula (target : Q) (years : Z) (rate : Q) : result Q :=
  monthly_rate ← py_truediv_int rate 1200;
  let months := (years * 12)%Z in
  invested ← py_mul_float target monthly_rate;
  growth ← py_pow (py_add_one monthly_rate) months;
  py_truediv invested (growth - 1).

Definition calculate_sip (target : Q) (years : Z) (rate : Q) : M Q :=
  try_except (lift (sip_formula target years rate))
             (fun e => _ ← st_error "SIP Error" e; mret 0).

Definition swp_formula (corpus : Q) (years : Z) (rate : Q) : result Q :=
  monthly_rate ← py_truediv_int rate 1200;
  let months := (years * 12)%Z in
  earned ← py_mul_float corpus monthly_rate;
  discount ← py_pow (py_add_one monthly_rate) (- months);
  py_truediv earned (1 - discount).

Definition calculate_swp (corpus : Q) (years : Z) (rate : Q) : M Q :=
  try_except (lift (swp_formula corpus years rate))
             (fun e => _ ← st_error "SWP Error" e; mret 0).

Definition emi_formula (principal : Q) (rate : Q) (years : Z) : result Q :=
  monthly_rate ← py_truediv_int rate 1200;
  let months := (years * 12)%Z in
  interest ← py_mul_float principal monthly_rate;
  growth ← py_pow (py_add_one monthly_rate) months;
  growth' ← py_pow (py_add_one monthly_rate) months;
  py_truediv (interest * growth) (growth' - 1).

Definition calculate_emi (principal : Q) (rate : Q) (years : Z) : M Q :=
  try_except (lift (emi_formula principal rate years))
             (fun e => _ ← st_error "EMI Error" e; mret 0).

(** ** The [FinancialGuru] object *)

(** A slab bound: a number, or [float('inf')]. *)
Inductive bound : Type :=
  | Finite (b : Q)
  | Infinity.

(** One entry [(slab, rate)] of a slab table. *)
Definition TaxSlab : Type := (bound * Q)%type.
Definition TaxTable : Type := list TaxSlab.

(** The [Close] column of the index data frame, rows in chronological
    order (the time index plays no part in the computations). *)
Definition PriceSeries : Type := list Q.

(** The attributes of [self] the engine reads.  An attribute is [None]
    until [__init__] has assigned it. *)
Record FinancialGuru : Type := {
  risk_profile : option Z;
  nifty50 : option PriceSeries;
  tax_slabs : option (gmap string TaxTable)
}.

(** Reading [self.<attribute>]. *)
Definition getattr {A : Type} (attribute : option A) : result A :=
  match attribute with
  | Some a => Ok a
  | None => Raise AttributeError
  end.

(** Subscripting a dict: [d[key]]. *)
Definition getitem {A : Type} (d : gmap string A) (key : string) : result A :=
  match d !! key with
  | Some a => Ok a
  | None => Raise KeyError
  end.

(** The table assigned to [self.tax_slabs] by [__init__]. *)
Definition IND : TaxTable :=
  [ (Finite 250000, 0); (Finite 500000, 5 # 100);
    (Finite 1000000, 2 # 10); (Infinity, 3 # 10) ].

Definition default_tax_slabs : gmap string TaxTable := {[ "IND"%string := IND ]}.

(** ** TaxEngine: [calculate_tax] and [tax_saving_options] *)

(** [min(remaining, slab)] *)
Definition min_bound (remaining : Q) (slab : bound) : Q :=
  match slab with
  | Finite b => py_min remaining b
  | Infinity => remaining
  end.

(** The [for slab, rate in ...] loop, carrying [tax] and [remaining];
    leaving the recursion early is the [break].  The rates are floats, so
    [amount * rate] converts an [int] amount (the one rate that is the
    [int] 0, in the first slab of [IND], meets amounts of at most 250000,
    which convert). *)
Fixpoint tax_loop (slabs : TaxTable) (tax remaining : Q) : result Q :=
  match slabs with
  | [] => Ok tax
  | (slab, rate) :: rest =>
      if Qle_bool remaining 0 then Ok tax
      else
        let amount := min_bound remaining slab in
        levy ← py_mul_float amount rate;
        tax_loop rest (tax + levy) (remaining - amount)
  end.

(** The statements under [try].  ([income - deductions] is taken exactly:
    between two [int]s it is, and among moderate amounts an [int] and the
    float of its value behave alike.) *)
Definition tax_body (self : FinancialGuru) (income deductions : Q) : result Q :=
  let taxable := py_max (income - deductions) 0 in
  let tax := 0 in
  let remaining := taxable in
  tables ← getattr (tax_slabs self);
  table ← getitem tables "IND";
  tax_loop table tax remaining.

Definition calculate_tax (self : FinancialGuru) (income deductions : Q) : M Q :=
  try_except (lift (tax_body self income deductions))
             (fun e => _ ← st_error "Tax Error" e; mret 0).

Definition elss_suggestion : string := "Invest ‚Çπ1.5L in ELSS (Section 80C)".
Definition health_suggestion : string := "Health Insurance (Section 80D)".
Definition nps_suggestion : string := "NPS Investment (Section 80CCD)".

(** [a > b] on numbers. *)
Definition py_gt (a b : Q) : bool := negb (Qle_bool a b).

(** The three [if] statements never raise on a number, so the handler
    would find [suggestions] as it was before the first of them. *)
Definition tax_saving_options (income : Q) : M (list string) :=
  let suggestions := [] in
  try_except
    (let suggestions :=
       if py_gt income 1500000 then suggestions ++ [elss_suggestion] else suggestions in
     let suggestions :=
       if py_gt income 700000 then suggestions ++ [health_suggestion] else suggestions in
     let suggestions :=
       if py_gt income 500000 then suggestions ++ [nps_suggestion] else suggestions in
     mret suggestions)
    (fun e => _ ← st_error "Tax Suggestion Error" e; mret suggestions).

(** ** GoalPlanner: [create_goal_plan] *)

(** [current_cost * (1 + inflation/100)**years]: the power is computed
    before the product converts the cost. *)
Definition projected_cost (current_cost : Q) (years : Z) (inflation : Q)
    : result Q :=
  ratio ← py_truediv_int inflation 100;
  growth ← py_pow (py_add_one ratio) years;
  cost ← to_float current_cost;
  Ok (cost * growth).

(** The statements under [try]; the plan is a dict. *)
Definition goal_plan_body (goal_type : string) (current_cost : Q) (years : Z)
    (inflation : Q) : M (gmap string Q) :=
  future_value ← lift (projected_cost current_cost years inflation);
  sip ← calculate_sip future_value years 12;
  swp ← calculate_swp future_value 10 8;
  mret ({[ "future_value"%string := future_value;
           "monthly_sip"%string := sip;
           "monthly_swp"%string := swp ]} : gmap string Q).

(** [inflation] is 6 when the caller leaves it out. *)
Definition create_goal_plan (goal_type : string) (current_cost : Q) (years : Z)
    (inflation : Q) : M (gmap string Q) :=
  try_except (goal_plan_body goal_type current_cost years inflation)
             (fun e => _ ← st_error "Goal Planning Error" e; mret (∅ : gmap string Q)).

(** ** RiskScorer: [_calculate_risk_profile] *)

(** A cell of a float64 series: a number, an infinity, or NaN. *)
Inductive npfloat : Type :=
  | Fin (q : Q)
  | Inf (negative : bool)
  | NaN.

(** Element-wise [a / b] of numpy: no exception, [x/0] is infinite and
    [0/0] is NaN. *)
Definition np_div (a b : Q) : npfloat :=
  if Qeq_bool b 0 then
    if Qeq_bool a 0 then NaN else Inf (negb (Qle_bool 0 a))
  else Fin (a / b).

Definition np_sub (x : npfloat) (c : Q) : npfloat :=
  match x with
  | Fin q => Fin (q - c)
  | Inf s => Inf s
  | NaN => NaN
  end.

(** [Series.pct_change()]: [prices / prices.shift(1) - 1]; the first row
    has no predecessor and is NaN. *)
Fixpoint pct_change_from (previous : Q) (prices : list Q) : list npfloat :=
  match prices with
  | [] => []
  | p :: rest => np_sub (np_div p previous) 1 :: pct_change_from p rest
  end.

Definition pct_change (prices : PriceSeries) : list npfloat :=
  match prices with
  | [] => []
  | p :: rest => NaN :: pct_change_from p rest
  end.

Definition is_nan (x : npfloat) : bool :=
  match x with NaN => true | _ => false end.

(** The rows that are not NaN ([skipna=True]). *)
Definition dropna (xs : list npfloat) : list npfloat :=
  List.filter (fun x => negb (is_nan x)) xs.

(** The numbers of a NaN-free column, unless one of them is infinite. *)
Fixpoint all_finite (xs : list npfloat) : option (list Q) :=
  match xs with
  | [] => Some []
  | Fin q :: rest => option_map (cons q) (all_finite rest)
  | _ :: _ => None
  end.

Definition Qsum (qs : list Q) : Q := fold_right Qplus 0 qs.

(** The variance behind [Series.std()] ([ddof=1]): NaN ([None]) with fewer
    than two valid rows, and NaN as soon as a row is infinite (the mean is
    then infinite or NaN, and so is a squared deviation). *)
Definition nanvar (xs : list npfloat) : option Q :=
  let values := dropna xs in
  let count := List.length values in
  if (count <=? 1)%nat then None
  else
    match all_finite values with
    | None => None
    | Some qs =>
        let avg := Qsum qs / inject_Z (Z.of_nat count) in
        let sqr := List.map (fun x => (avg - x) * (avg - x)) qs in
        Some (Qsum sqr / inject_Z (Z.of_nat count - 1))
    end.

(** A float whose exact value is a square root: NaN, or the non-negative
    real whose square is [radicand]. *)
Inductive root : Type :=
  | RNaN
  | Sqrt (radicand : Q).

Definition std (xs : list npfloat) : root :=
  match nanvar xs with
  | None => RNaN
  | Some v => Sqrt v
  end.

(** [np.sqrt(q)] *)
Definition np_sqrt (q : Q) : root := Sqrt q.

(** [a * b] on roots, and [a * k] for a non-negative number [k]. *)
Definition root_mul (a b : root) : root :=
  match a, b with
  | Sqrt x, Sqrt y => Sqrt (x * y)
  | _, _ => RNaN
  end.

Definition root_scale (a : root) (k : Q) : root :=
  match a with
  | Sqrt x => Sqrt (x * (k * k))
  | RNaN => RNaN
  end.

(** The integer part and the integer ceiling of the square root of a
    non-negative rational. *)
Definition floor_sqrt (x : Q) : Z := Z.sqrt (Qfloor x).
Definition ceil_sqrt (x : Q) : Z := Z.sqrt_up (Qceiling x).

(** [int(c - r)] for an integer [c]: [int] truncates towards zero, and
    refuses NaN.  When the root is at most [c] the difference is
    non-negative and is rounded down, otherwise it is negative and is
    rounded up. *)
Definition int_sub_root (c : Z) (r : root) : result Z :=
  match r with
  | RNaN => Raise ValueError
  | Sqrt x =>
      if (0 <=? c)%Z && Qle_bool x (inject_Z (c * c))
      then Ok (c - ceil_sqrt x)%Z
      else Ok (c - floor_sqrt x)%Z
  end.

(** [min(a, b)] on integers. *)
Definition py_min_int (a b : Z) : Z := if (b <? a)%Z then b else a.

(** [DataFrame.empty] *)
Definition empty (prices : PriceSeries) : bool :=
  match prices with [] => true | _ => false end.

(** [self.nifty50['Close'].pct_change().std() * np.sqrt(252)] *)
Definition annual_volatility (prices : PriceSeries) : root :=
  root_mul (std (pct_change prices)) (np_sqrt 252).

(** The statements under [try]. *)
Definition risk_profile_body (self : FinancialGuru) : result Z :=
  prices ← getattr (nifty50 self);
  if negb (empty prices) then
    let volatility := annual_volatility prices in
    score ← int_sub_root 10 (root_scale volatility 100);
    Ok (py_min_int score 10)
  else Ok 5%Z.

(** The handler is a bare [except:] and reports nothing. *)
Definition _calculate_risk_profile (self : FinancialGuru) : M Z :=
  try_except (lift (risk_profile_body self)) (fun _ => mret 5%Z).

(** An object whose [nifty50] attribute holds [prices]. *)
Definition holding (prices : PriceSeries) : FinancialGuru :=
  {| risk_profile := None; nifty50 := Some prices; tax_slabs := None |}.

(** ** [__init__]

    The three fetchers answer what the network answers, and are
    parameters: [get_index_data] stands for the call
    [self._get_index_data('^NSEI')], seen through the close prices of the
    frame it returns, [get_gold_price] for [self._get_gold_price()] and
    [get_crypto_price] for [self._get_crypto_price('bitcoin')]; each may
    write to the page.  The risk profile is computed first, when
    [self.nifty50] does not exist yet.  The attributes the engine never
    reads (the risk-free rate, the gold and bitcoin prices, the user
    goals) are computed and not kept. *)
Definition __init__ (get_index_data : M PriceSeries)
    (get_gold_price get_crypto_price : M npfloat) : M FinancialGuru :=
  let self := {| risk_profile := None; nifty50 := None; tax_slabs := None |} in
  profile ← _calculate_risk_profile self;
  let self := {| risk_profile := Some profile; nifty50 := nifty50 self;
                 tax_slabs := tax_slabs self |} in
  index_data ← get_index_data;
  let self := {| risk_profile := risk_profile self; nifty50 := Some index_data;
                 tax_slabs := tax_slabs self |} in
  let self := {| risk_profile := risk_profile self; nifty50 := nifty50 self;
                 tax_slabs := Some default_tax_slabs |} in
  gold_price ← get_gold_price;
  btc_price ← get_crypto_price;
  mret self.

(** A fetcher that, like the three of the source, catches what its body
    raises: it returns from every page. *)
Definition never_raises {A : Type} (m : M A) : Prop :=
  forall s : page, exists (v : A) (s' : page), m s = (Ok v, s').

(** ** The object [__init__] builds from the index data [index_data] *)

Definition guru (index_data : PriceSeries) : FinancialGuru :=
  {| risk_profile := Some 5%Z; nifty50 := Some index_data;
     tax_slabs := Some default_tax_slabs |}.

(** A rational-valued method returns, from every page and without raising,
    a value equal to [q]. *)
Definition returnsQ (m : M Q) (q : Q) : Prop :=
  forall s : page, exists v : Q, fst (m s) = Ok v /\ v == q.

(** ** The specification's slab walk

    Section 4.3 of the specification, in its own words: starting from the
    taxable amount, each slab in turn consumes [min(remaining, width)] of
    what remains and contributes that amount times the slab's rate, until
    nothing remains. *)
Fixpoint slab_walk (table : TaxTable) (remaining : Q) : Q :=
  match table with
  | [] => 0
  | (width, rate) :: higher =>
      if Qlt_le_dec 0 remaining then
        let amount :=
          match width with
          | Finite w => Qmin remaining w
          | Infinity => remaining
          end in
        amount * rate + slab_walk higher (remaining - amount)
      else 0
  end.

Definition progressive_tax (table : TaxTable) (income deductions : Q) : Q :=
  slab_walk table (Qmax (income - deductions) 0).

(** The reading behind the specification's worked example
    [250000*0 + 250000*0.05 + 100000*0.2]: each bound is the cumulative
    threshold up to which its rate applies, so a slab taxes the part of
    the taxable amount between the previous bound and its own. *)
Fixpoint threshold_walk (table : TaxTable) (lower taxable : Q) : Q :=
  match table with
  | [] => 0
  | (upper, rate) :: higher =>
      if Qlt_le_dec lower taxable then
        match upper with
        | Finite u =>
            (Qmin taxable u - lower) * rate + threshold_walk higher u taxable
        | Infinity => (taxable - lower) * rate
        end
      else 0
  end.

(** A table whose rates and finite bounds are not negative. *)
Definition nonneg_slab (slab : TaxSlab) : Prop :=
  0 <= snd slab /\
  match fst slab with
  | Finite w => 0 <= w
  | Infinity => True
  end.

Definition nonneg_table (table : TaxTable) : Prop := Forall nonneg_slab table.

(** The interest a loan costs in total when [emi] is paid every month of
    its [years]: [emi * months - principal]. *)
Definition total_interest (principal : Q) (years : Z) (emi : Q) : Q :=
  emi * inject_Z (years * 12) - principal.

(** What a caller receives from [calculate_sip], [calculate_swp] and
    [calculate_emi]: the value of the formula, or 0 when it raised. *)
Definition sip_value (target : Q) (years : Z) (rate : Q) : Q :=
  match sip_formula target years rate with Ok v => v | Raise _ => 0 end.

Definition swp_value (corpus : Q) (years : Z) (rate : Q) : Q :=
  match swp_formula corpus years rate with Ok v => v | Raise _ => 0 end.

Definition emi_value (principal : Q) (rate : Q) (years : Z) : Q :=
  match emi_formula principal rate years with Ok v => v | Raise _ => 0 end.

(** The shape [calculate_sip], [calculate_swp], [calculate_emi] and
    [calculate_tax] share: a [try] around pure code whose handler reports
    the exception and returns a default. *)
Definition guarded {A : Type} (body : result A) (source : string) (default : A)
    : M A :=
  try_except (lift body) (fun e => _ ← st_error source e; mret default).

(** ** Inputs of ordinary size

    Not in the source: the inputs for which binary64 follows the exact
    computation, every whole number being a float and no sum or power
    leaving the range or losing its increment.  Amounts go up to [10^15]
    (below [2^53]); terms and rates include what the sliders of the
    dashboard offer (1 to 30 years, rates from 5 to 20) and the rates 12
    and 8 of the goal planner. *)
Definition moderate (x : Q) : Prop :=
  - (1000000000000000) <= x <= 1000000000000000.

Definition ordinary_amount (x : Q) : Prop := 1 <= x <= 1000000000000000.

Definition ordinary_years (years : Z) : Prop := (1 <= years <= 30)%Z.

Definition ordinary_rate (rate : Q) : Prop := 1 <= rate <= 30.

(** A table whose rates are fractions of the amount, as the
    specification has them. *)
Definition fractional_rates (table : TaxTable) : Prop :=
  Forall (fun slab : TaxSlab => snd slab <= 1) table.

(** ** Accounts, for stating what the annuity formulas achieve

    These two recurrences are not in the source; they are the savings
    account and the loan or corpus account the three formulas are about.
    [sip_balance i c n] is what [n] contributions of [c], one at the end of
    each month, have grown to at the monthly rate [i].  [balance_after i w b n]
    is what is left of [b] after [n] months, each adding the interest and
    then taking the payment [w] out. *)
Fixpoint sip_balance (i contribution : Q) (n : nat) : Q :=
  match n with
  | O => 0
  | S k => sip_balance i contribution k * (1 + i) + contribution
  end.

Fixpoint balance_after (i payment balance : Q) (n : nat) : Q :=
  match n with
  | O => balance
  | S k => balance_after i payment balance k * (1 + i) - payment
  end.

(** ** The schedule the default table amounts to

    Not in the source: the tax as a function of the taxable amount that
    consuming the bounds of [IND] as widths produces, with brackets ending
    at 250000, 750000 and 1750000. *)
Definition effective_schedule (taxable : Q) : Q :=
  if Qle_bool taxable 250000 then 0
  else if Qle_bool taxable 750000 then (taxable - 250000) * (5 # 100)
  else if Qle_bool taxable 1750000 then 25000 + (taxable - 750000) * (2 # 10)
  else 225000 + (taxable - 1750000) * (3 # 10).

(** ** The "Generate Plan" button of [main]

    The statements under [if st.button("Generate Plan")]: the plan is
    built and its three entries are read, in this order, for the three
    metrics.  The result is what the metrics are given to display, before
    it is formatted. *)
Definition main_generate_plan (goal_type : string) (current_cost : Q)
    (years : Z) (inflation : Q) : M (Q * Q * Q) :=
  plan ← create_goal_plan goal_type current_cost years inflation;
  future_value ← lift (getitem plan "future_value");
  monthly_sip ← lift (getitem plan "monthly_sip");
  monthly_swp ← lift (getitem plan "monthly_swp");
  mret (future_value, monthly_sip, monthly_swp).

(** ** Cells that denote the same float

    Not in the source: two cells are the same when they are the same
    special value or equal numbers (as rationals, not as fractions). *)
Inductive same_cell : npfloat -> npfloat -> Prop :=
  | same_fin (a b : Q) : a == b -> same_cell (Fin a) (Fin b)
  | same_inf (s : bool) : same_cell (Inf s) (Inf s)
  | same_nan : same_cell NaN NaN.

(** The same for a variance that may be NaN. *)
Definition same_variance (a b : option Q) : Prop :=
  match a, b with
  | Some x, Some y => x == y
  | None, None => True
  | _, _ => False
  end.

(** ** The data the engine is fed: [_get_index_data], [_get_crypto_price]

    A data frame is its columns, in order, each a name and its cells; all
    columns have as many cells as the frame has rows.  [pd.DataFrame()] is
    the frame without columns.  What [yf.download] and [requests.get]
    answer is not the program's to decide: they are parameters. *)
Definition DataFrame : Type := list (string * list npfloat).

(** [DataFrame.empty]: no column, or no row. *)
Definition frame_empty (data : DataFrame) : bool :=
  match data with
  | [] => true
  | (_, cells) :: _ => match cells with [] => true | _ => false end
  end.

(** [data[[name]]]: the frame of the columns with that label, all of them
    when the label occurs more than once; a label that does not occur
    raises. *)
Definition select_columns (data : DataFrame) (name : string) : result DataFrame :=
  match List.filter (fun column => String.eqb (fst column) name) data with
  | [] => Raise KeyError
  | found => Ok found
  end.

(** [ffill()]: a NaN cell takes the last valid value above it, if any. *)
Fixpoint ffill_from (last : npfloat) (cells : list npfloat) : list npfloat :=
  match cells with
  | [] => []
  | x :: rest =>
      let filled := if is_nan x then last else x in
      filled :: ffill_from filled rest
  end.

Definition ffill_cells (cells : list npfloat) : list npfloat := ffill_from NaN cells.

(** [bfill()]: a NaN cell takes the next valid value below it, if any. *)
Fixpoint bfill_cells (cells : list npfloat) : list npfloat :=
  match cells with
  | [] => []
  | x :: rest =>
      let below := bfill_cells rest in
      (if is_nan x then hd NaN below else x) :: below
  end.

Definition ffill (data : DataFrame) : DataFrame :=
  List.map (fun column => (fst column, ffill_cells (snd column))) data.

Definition bfill (data : DataFrame) : DataFrame :=
  List.map (fun column => (fst column, bfill_cells (snd column))) data.

Definition _get_index_data (download : string -> result DataFrame)
    (ticker : string) : M DataFrame :=
  try_except
    (data ← lift (download ticker);
     if negb (frame_empty data) then
       close ← lift (select_columns data "Close");
       mret (bfill (ffill close))
     else mret [])
    (fun e => _ ← st_error "Market Data Error" e; mret []).

(** The decoded answer of the price service: for each coin, its quote in
    each currency. *)
Definition _get_crypto_price
    (get_json : string -> result (gmap string (gmap string Q)))
    (coin_id : string) : M npfloat :=
  try_except
    (let url := ("https://api.coingecko.com/api/v3/simple/price?ids=" ++ coin_id
                 ++ "&vs_currencies=inr")%string in
     response ← lift (get_json url);
     quotes ← lift (getitem response coin_id);
     price ← lift (getitem quotes "inr");
     mret (Fin price))
    (fun e => _ ← st_error "Crypto Error" e; mret NaN).

(** A filled cell stands for the cell it replaces: a cell that held a
    value still holds it. *)
Definition keeps_value (before after : npfloat) : Prop :=
  is_nan before = false -> after = before.

Definition no_nan (cells : list npfloat) : Prop :=
  Forall (fun x => is_nan x = false) cells.

(** What the two fills make of a column: its label, every value it held,
    and no NaN unless it held nothing else. *)
Definition filled_from (before after : string * list npfloat) : Prop :=
  fst after = fst before /\
  Forall2 keeps_value (snd before) (snd after) /\
  (Exists (fun x => is_nan x = false) (snd before) -> no_nan (snd after)).

(** * Proofs *)

(** ** The monads *)

Lemma Qle_bool_reflect (a b : Q) : reflect (a <= b) (Qle_bool a b).
Proof.
  destruct (Qle_bool a b) eqn:E; constructor.
  - now apply Qle_bool_iff.
  - intros H. apply Qle_bool_iff in H. congruence.
Qed.

Lemma Qeq_bool_reflect (a b : Q) : reflect (a == b) (Qeq_bool a b).
Proof.
  destruct (Qeq_bool a b) eqn:E; constructor.
  - now apply Qeq_bool_iff.
  - intros H. apply Qeq_bool_iff in H. congruence.
Qed.

Section Guarded.
Context {A : Type} (body : result A) (source : string) (default : A).

Lemma run_guarded (s : page) :
  fst (guarded body source default s)
  = Ok (match body with Ok v => v | Raise _ => default end).
Proof. unfold guarded, try_except, lift. destruct body; reflexivity. Qed.

(** The page gains one diagnostic when the body raises, none otherwise. *)
Lemma page_guarded (s : page) :
  snd (guarded body source default s)
  = match body with Ok _ => s | Raise e => s ++ [Diag source e] end.
Proof. unfold guarded, try_except, lift. destruct body; reflexivity. Qed.

Lemma guarded_total (s : page) :
  exists s' : page,
    guarded body source default s
    = (Ok (match body with Ok v => v | Raise _ => default end), s').
Proof.
  unfold guarded, try_except, lift. destruct body as [v | e].
  - exists s. reflexivity.
  - exists (s ++ [Diag source e]). reflexivity.
Qed.

Lemma returns_guarded_ok (v : A) :
  body = Ok v -> returns (guarded body source default) v.
Proof. intros E s. rewrite run_guarded, E. reflexivity. Qed.

Lemma returns_guarded_raise (e : exn) :
  body = Raise e -> returns (guarded body source default) default.
Proof. intros E s. rewrite run_guarded, E. reflexivity. Qed.

End Guarded.

Lemma returns_value_of {A : Type} (m : M A) (v : A) :
  returns m v -> value_of m = Ok v.
Proof. intros H. apply H. Qed.

Lemma returnsQ_of_returns (m : M Q) (v q : Q) :
  returns m v -> v == q -> returnsQ m q.
Proof. intros H E s. exists v. split; [apply H | exact E]. Qed.

Lemma guarded_raise_run {A : Type} (body : result A) (source : string)
    (default : A) (e : exn) (s : page) :
  body = Raise e -> guarded body source default s = (Ok default, s ++ [Diag source e]).
Proof. intros ->. reflexivity. Qed.

Lemma guarded_ok_run {A : Type} (body : result A) (source : string)
    (default v : A) (s : page) :
  body = Ok v -> guarded body source default s = (Ok v, s).
Proof. intros ->. reflexivity. Qed.

(** ** The range of binary64 *)

Lemma float_overflows_false (x : Q) : Qabs x < float_limit -> float_overflows x = false.
Proof.
  intros H. unfold float_overflows.
  destruct (Qle_bool_reflect float_limit (Qabs x)); [lra | reflexivity].
Qed.

Lemma float_overflows_true (x : Q) : float_limit <= x -> float_overflows x = true.
Proof.
  intros H. unfold float_overflows.
  destruct (Qle_bool_reflect float_limit (Qabs x)) as [| Hn]; [reflexivity |].
  exfalso. apply Hn. apply Qle_trans with x; [exact H | apply Qle_Qabs].
Qed.

(** A number between [-b] and [b] fits as soon as [b] does. *)
Lemma fits (b x : Q) : b < float_limit -> - b <= x <= b -> float_overflows x = false.
Proof.
  intros Hb H. apply float_overflows_false.
  apply Qle_lt_trans with b; [| exact Hb]. now apply Qabs_Qle_condition.
Qed.

Lemma to_float_fits (b x : Q) : b < float_limit -> - b <= x <= b -> to_float x = Ok x.
Proof. intros Hb H. unfold to_float. now rewrite (fits b x Hb H). Qed.

Lemma py_mul_float_fits (b a x : Q) :
  b < float_limit -> - b <= a <= b -> py_mul_float a x = Ok (a * x).
Proof. intros Hb H. unfold py_mul_float. now rewrite (to_float_fits b a Hb H). Qed.

Lemma py_mul_float_cases (a x : Q) :
  py_mul_float a x = Raise OverflowError \/ py_mul_float a x = Ok (a * x).
Proof. unfold py_mul_float, to_float. destruct (float_overflows a); auto. Qed.

(** Twice [10^15], the largest taxable amount of moderate inputs. *)
Lemma moderate_fits : 2000000000000000 < float_limit.
Proof. reflexivity. Qed.

(** ** Tax *)

Lemma py_min_Qmin (a b : Q) : py_min a b = Qmin a b.
Proof.
  unfold py_min, Qmin, GenericMinMax.gmin.
  destruct (Qlt_le_dec b a) as [H | H]; destruct (Qcompare a b) eqn:E;
    try reflexivity.
  - apply Qeq_alt in E. lra.
  - apply Qlt_alt in E. lra.
  - apply Qgt_alt in E. lra.
Qed.

Lemma py_max_Qmax (a b : Q) : py_max a b = Qmax a b.
Proof.
  unfold py_max, Qmax, GenericMinMax.gmax.
  destruct (Qlt_le_dec a b) as [H | H]; destruct (Qcompare a b) eqn:E;
    try reflexivity.
  - apply Qeq_alt in E. lra.
  - apply Qgt_alt in E. lra.
  - apply Qlt_alt in E. lra.
Qed.

Lemma py_max_zero_nonneg (a : Q) : 0 <= py_max a 0.
Proof. unfold py_max. destruct (Qlt_le_dec a 0); lra. Qed.

Lemma py_max_zero_monotone (a b : Q) : a <= b -> py_max a 0 <= py_max b 0.
Proof.
  intros H. unfold py_max.
  destruct (Qlt_le_dec a 0), (Qlt_le_dec b 0); lra.
Qed.

Lemma py_max_zero_upper (a b : Q) : 0 <= b -> a <= b -> py_max a 0 <= b.
Proof. intros H0 H. unfold py_max. destruct (Qlt_le_dec a 0); lra. Qed.

Lemma min_bound_range (remaining : Q) (slab : bound) (rate : Q) :
  nonneg_slab (slab, rate) -> 0 < remaining ->
  0 <= min_bound remaining slab <= remaining.
Proof.
  intros [_ Hw] Hr. simpl in Hw. destruct slab as [w |]; simpl.
  - unfold py_min. destruct (Qlt_le_dec w remaining); lra.
  - lra.
Qed.

Lemma min_bound_monotone (r1 r2 : Q) (slab : bound) :
  r1 <= r2 ->
  min_bound r1 slab <= min_bound r2 slab /\
  r1 - min_bound r1 slab <= r2 - min_bound r2 slab.
Proof.
  intros H. destruct slab as [w |]; simpl.
  - unfold py_min. destruct (Qlt_le_dec w r1), (Qlt_le_dec w r2); lra.
  - lra.
Qed.

(** The slab walk of the specification is not negative and grows with the
    taxable amount, on a table without negative entries. *)
Lemma slab_walk_lower (table : TaxTable) :
  nonneg_table table -> forall remaining : Q, 0 <= slab_walk table remaining.
Proof.
  induction 1 as [| [slab rate] rest Hslab _ IH]; intros remaining; simpl.
  - lra.
  - destruct (Qlt_le_dec 0 remaining) as [Hr | Hr]; [| lra].
    pose proof (min_bound_range remaining slab rate Hslab Hr) as Ha.
    destruct Hslab as [Hrate _]. simpl in Hrate.
    destruct slab as [w |]; simpl in Ha; rewrite ?py_min_Qmin in Ha.
    + specialize (IH (remaining - Qmin remaining w)).
      assert (0 <= Qmin remaining w * rate) by (apply Qmult_le_0_compat; lra).
      lra.
    + specialize (IH (remaining - remaining)).
      assert (0 <= remaining * rate) by (apply Qmult_le_0_compat; lra).
      lra.
Qed.

Lemma slab_walk_step (slab : bound) (rate : Q) (rest : TaxTable) (remaining : Q) :
  0 < remaining ->
  slab_walk ((slab, rate) :: rest) remaining
  == min_bound remaining slab * rate
     + slab_walk rest (remaining - min_bound remaining slab).
Proof.
  intros Hr. simpl. destruct (Qlt_le_dec 0 remaining) as [_ | H]; [| lra].
  destruct slab as [w |]; simpl; rewrite ?py_min_Qmin; reflexivity.
Qed.

Lemma slab_walk_done (table : TaxTable) (remaining : Q) :
  remaining <= 0 -> slab_walk table remaining == 0.
Proof.
  intros Hr. destruct table as [| [slab rate] rest]; simpl; [reflexivity |].
  destruct (Qlt_le_dec 0 remaining); [lra | reflexivity].
Qed.

Lemma slab_walk_monotone (table : TaxTable) :
  nonneg_table table ->
  forall r1 r2 : Q, r1 <= r2 -> slab_walk table r1 <= slab_walk table r2.
Proof.
  induction 1 as [| [slab rate] rest Hslab Hrest IH]; intros r1 r2 Hr.
  - simpl. lra.
  - destruct (Qlt_le_dec 0 r1) as [H1 | H1].
    + assert (H2 : 0 < r2) by lra.
      rewrite (slab_walk_step slab rate rest r1 H1),
              (slab_walk_step slab rate rest r2 H2).
      destruct (min_bound_monotone r1 r2 slab Hr) as [Ha Hb].
      destruct Hslab as [Hrate _]. simpl in Hrate.
      specialize (IH _ _ Hb).
      assert (min_bound r1 slab * rate <= min_bound r2 slab * rate)
        by (apply Qmult_le_compat_r; assumption).
      lra.
    + rewrite (slab_walk_done _ r1 H1).
      apply slab_walk_lower. now constructor.
Qed.

(** As long as what remains fits binary64, no product of the loop
    overflows, and the loop adds the slab walk of what remains to the tax
    it carries. *)
Lemma tax_loop_slab_walk (slabs : TaxTable) :
  nonneg_table slabs ->
  forall tax remaining : Q,
    remaining <= 2000000000000000 ->
    exists v : Q,
      tax_loop slabs tax remaining = Ok v /\ v == tax + slab_walk slabs remaining.
Proof.
  induction 1 as [| [slab rate] rest Hslab _ IH]; intros tax remaining Hfit.
  - exists tax. split; [reflexivity | simpl; ring].
  - cbn [tax_loop].
    destruct (Qle_bool_reflect remaining 0) as [Hr | Hr].
    + exists tax. split; [reflexivity |].
      rewrite (slab_walk_done _ remaining Hr). ring.
    + assert (Hr' : 0 < remaining) by lra.
      pose proof (min_bound_range remaining slab rate Hslab Hr') as Ha.
      rewrite (py_mul_float_fits 2000000000000000 (min_bound remaining slab) rate
                 moderate_fits) by lra.
      cbn [mbind result_bind].
      destruct (IH (tax + min_bound remaining slab * rate)
                   (remaining - min_bound remaining slab)) as (v & Ev & Hv); [lra |].
      exists v. split; [exact Ev |].
      rewrite Hv, (slab_walk_step slab rate rest remaining Hr'). ring.
Qed.

Lemma IND_nonneg : nonneg_table IND.
Proof.
  unfold IND, nonneg_table.
  repeat (constructor; [split; simpl; lra |]).
  constructor.
Qed.

Lemma moderate_taxable (income deductions : Q) :
  moderate income -> moderate deductions ->
  py_max (income - deductions) 0 <= 2000000000000000.
Proof.
  intros [Hi1 Hi2] [Hd1 Hd2]. apply py_max_zero_upper; lra.
Qed.

(** The body of [calculate_tax] on a table without negative entries and
    moderate inputs. *)
Lemma tax_body_slab_walk (self : FinancialGuru) (tables : gmap string TaxTable)
    (table : TaxTable) (income deductions : Q) :
  tax_slabs self = Some tables -> tables !! "IND"%string = Some table ->
  nonneg_table table -> moderate income -> moderate deductions ->
  exists v : Q,
    tax_body self income deductions = Ok v /\
    v == slab_walk table (py_max (income - deductions) 0).
Proof.
  intros Hself Htable Hnonneg Hi Hd.
  destruct (tax_loop_slab_walk table Hnonneg 0 (py_max (income - deductions) 0))
    as (v & Ev & Hv); [now apply moderate_taxable |].
  exists v. split; [| rewrite Hv; ring].
  unfold tax_body, getitem. rewrite Hself. simpl. rewrite Htable. exact Ev.
Qed.

Lemma calculate_tax_guru (index_data : PriceSeries) (income deductions : Q) :
  moderate income -> moderate deductions ->
  exists v : Q,
    returns (calculate_tax (guru index_data) income deductions) v /\
    v == slab_walk IND (py_max (income - deductions) 0).
Proof.
  intros Hi Hd.
  destruct (tax_body_slab_walk (guru index_data) default_tax_slabs IND income
              deductions eq_refl eq_refl IND_nonneg Hi Hd) as (v & Ev & Hv).
  exists v. split; [| exact Hv].
  now apply returns_guarded_ok.
Qed.

Lemma calculate_tax_guru_600000 (index_data : PriceSeries) :
  exists v : Q,
    returns (calculate_tax (guru index_data) 600000 0) v /\ v == 17500.
Proof.
  eexists. split; [apply returns_guarded_ok; vm_compute; reflexivity | reflexivity].
Qed.

(** The 32500 of the specification's third example is not what comes out. *)
Lemma calculate_tax_600000_not_32500 (index_data : PriceSeries) :
  ~ returnsQ (calculate_tax (guru index_data) 600000 0) 32500.
Proof.
  intros H. destruct (H []) as (v & Hv & Hq).
  destruct (calculate_tax_guru_600000 index_data) as (v' & Hv' & Hq').
  rewrite (Hv' []) in Hv. injection Hv as <-.
  rewrite Hq' in Hq. discriminate Hq.
Qed.

(** That 32500 is what the same table gives when its bounds are read as
    cumulative thresholds, the way the 'IND' schedule is written. *)
Lemma threshold_walk_600000 : threshold_walk IND 0 600000 == 32500.
Proof. reflexivity. Qed.

(** C1.  The worked examples of the specification on the default table:
    [tax(0, 0)] and [tax(200000, 0)] are 0 as stated, but [tax(600000, 0)]
    is 17500, not the 32500 of the specification: the second slab's bound
    500000 is consumed as a width, so the whole 350000 above the first
    slab is taxed at 5% and the 20% slab is never reached. *)
Theorem calculate_tax_worked_examples (index_data : PriceSeries) :
  returnsQ (calculate_tax (guru index_data) 0 0) 0 /\
  returnsQ (calculate_tax (guru index_data) 200000 0) 0 /\
  returnsQ (calculate_tax (guru index_data) 600000 0) 17500.
Proof.
  repeat split;
    (eapply returnsQ_of_returns;
     [apply returns_guarded_ok; vm_compute; reflexivity | reflexivity]).
Qed.

(** An [int] income of [10^400]: in the last slab [amount * rate] cannot
    convert the amount, the handler reports the [OverflowError] and the
    tax returned is 0. *)
Lemma calculate_tax_overflow (index_data : PriceSeries) (s : page) :
  calculate_tax (guru index_data) (inject_Z (10 ^ 400)) 0 s
  = (Ok 0, s ++ [Diag "Tax Error" OverflowError]).
Proof.
  apply (guarded_raise_run (tax_body (guru index_data) (inject_Z (10 ^ 400)) 0)
           "Tax Error" 0 OverflowError s).
  vm_compute. reflexivity.
Qed.

(** The claim C2 fails there: the slab walk of the specification charges
    30 percent of nearly all of it. *)
Lemma calculate_tax_is_not_slab_walk :
  returns (calculate_tax (guru []) (inject_Z (10 ^ 400)) 0) 0 /\
  ~ progressive_tax IND (inject_Z (10 ^ 400)) 0 == 0.
Proof.
  split.
  - intros s. now rewrite calculate_tax_overflow.
  - vm_compute. discriminate.
Qed.

(** C2 (amended).  Whatever table [self.tax_slabs['IND']] holds, with
    rates that are fractions and bounds that are not negative,
    [calculate_tax] returns for moderate incomes and deductions the tax of
    the specification's progressive slab walk over it, each stored bound
    being used as the width of its slab. *)
Theorem calculate_tax_is_slab_walk (self : FinancialGuru)
    (tables : gmap string TaxTable) (table : TaxTable) (income deductions : Q) :
  tax_slabs self = Some tables ->
  tables !! "IND"%string = Some table ->
  nonneg_table table -> fractional_rates table ->
  moderate income -> moderate deductions ->
  returnsQ (calculate_tax self income deductions)
           (progressive_tax table income deductions).
Proof.
  intros Hself Htable Hnonneg _ Hi Hd.
  destruct (tax_body_slab_walk self tables table income deductions
              Hself Htable Hnonneg Hi Hd) as (v & Ev & Hv).
  apply returnsQ_of_returns with (v := v).
  - now apply returns_guarded_ok.
  - unfold progressive_tax. rewrite Hv, py_max_Qmax. reflexivity.
Qed.

Lemma IND_fractional : fractional_rates IND.
Proof.
  unfold IND, fractional_rates.
  repeat (constructor; [simpl; lra |]).
  constructor.
Qed.

Lemma calculate_tax_is_slab_walk_witness :
  tax_slabs (guru []) = Some default_tax_slabs /\
  default_tax_slabs !! "IND"%string = Some IND /\
  nonneg_table IND /\ fractional_rates IND /\
  moderate 600000 /\ moderate 0 /\
  returnsQ (calculate_tax (guru []) 600000 0) (progressive_tax IND 600000 0).
Proof.
  assert (H1 : moderate 600000) by (unfold moderate; lra).
  assert (H2 : moderate 0) by (unfold moderate; lra).
  split; [reflexivity |]. split; [reflexivity |].
  split; [exact IND_nonneg |]. split; [exact IND_fractional |].
  split; [exact H1 |]. split; [exact H2 |].
  apply (calculate_tax_is_slab_walk (guru []) default_tax_slabs IND 600000 0);
    [reflexivity | reflexivity | exact IND_nonneg | exact IND_fractional
    | exact H1 | exact H2].
Defined.

(** The claim C10 fails beyond the range of binary64: an income of
    2000000 is taxed 300000, the [int] income [10^400] is taxed 0. *)
Lemma calculate_tax_not_monotone :
  2000000 <= inject_Z (10 ^ 400) /\
  exists t1 t2 : Q,
    returns (calculate_tax (guru []) 2000000 0) t1 /\
    returns (calculate_tax (guru []) (inject_Z (10 ^ 400)) 0) t2 /\
    t1 == 300000 /\ t2 == 0 /\ ~ t1 <= t2.
Proof.
  split; [vm_compute; discriminate |].
  eexists. exists 0.
  split; [apply returns_guarded_ok; vm_compute; reflexivity |].
  split; [intros s; now rewrite calculate_tax_overflow |].
  split; [reflexivity |]. split; [reflexivity |].
  vm_compute. intros H. now apply H.
Qed.

(** C10 (amended).  On the default table, for fixed deductions and
    moderate amounts, the tax is never negative and does not decrease when
    the income grows. *)
Theorem calculate_tax_monotone (index_data : PriceSeries) (i1 i2 deductions : Q) :
  moderate i1 -> moderate i2 -> moderate deductions ->
  i1 <= i2 ->
  exists t1 t2 : Q,
    returns (calculate_tax (guru index_data) i1 deductions) t1 /\
    returns (calculate_tax (guru index_data) i2 deductions) t2 /\
    0 <= t1 /\ t1 <= t2.
Proof.
  intros H1 H2 Hd H.
  destruct (calculate_tax_guru index_data i1 deductions H1 Hd) as (t1 & R1 & E1).
  destruct (calculate_tax_guru index_data i2 deductions H2 Hd) as (t2 & R2 & E2).
  exists t1, t2. split; [exact R1 |]. split; [exact R2 |].
  rewrite E1, E2. split.
  - apply slab_walk_lower, IND_nonneg.
  - apply slab_walk_monotone; [apply IND_nonneg |].
    apply py_max_zero_monotone. lra.
Qed.

Lemma calculate_tax_monotone_witness :
  moderate 400000 /\ moderate 600000 /\ moderate 0 /\ 400000 <= 600000 /\
  exists t1 t2 : Q,
    returns (calculate_tax (guru []) 400000 0) t1 /\
    returns (calculate_tax (guru []) 600000 0) t2 /\
    0 <= t1 /\ t1 <= t2.
Proof.
  assert (H1 : moderate 400000) by (unfold moderate; lra).
  assert (H2 : moderate 600000) by (unfold moderate; lra).
  assert (H3 : moderate 0) by (unfold moderate; lra).
  split; [exact H1 |]. split; [exact H2 |]. split; [exact H3 |].
  split; [lra |].
  apply (calculate_tax_monotone [] 400000 600000 0); [exact H1 | exact H2 | exact H3 | lra].
Defined.

(** ** Annuity formulas *)

Lemma py_truediv_zero (a b : Q) : b == 0 -> py_truediv a b = Raise ZeroDivisionError.
Proof.
  intros H. unfold py_truediv.
  destruct (Qeq_bool_reflect b 0); [reflexivity | contradiction].
Qed.

Lemma py_truediv_nonzero (a b : Q) : ~ b == 0 -> py_truediv a b = Ok (a / b).
Proof.
  intros H. unfold py_truediv.
  destruct (Qeq_bool_reflect b 0); [contradiction | reflexivity].
Qed.

Lemma monthly_rate_cases (rate : Q) :
  py_truediv_int rate 1200 = Raise OverflowError \/
  py_truediv_int rate 1200 = Ok (rate / 1200).
Proof.
  unfold py_truediv_int. change (Qeq_bool 1200 0) with false. cbv iota.
  destruct (float_overflows (rate / 1200)); auto.
Qed.

Lemma py_pow_cases (x : Q) (n : Z) :
  (exists e : exn, py_pow x n = Raise e) \/ py_pow x n = Ok (x ^ n).
Proof.
  unfold py_pow.
  destruct (float_overflows (inject_Z n)); [left; eauto |].
  destruct ((n <? 0)%Z && Qeq_bool x 0); [left; eauto |].
  destruct (float_overflows (x ^ n)); [left; eauto | now right].
Qed.

(** When nothing overflows, the power raises on zero to a negative
    exponent only. *)
Lemma py_pow_fits (x : Q) (n : Z) :
  float_overflows (inject_Z n) = false -> float_overflows (x ^ n) = false ->
  ~ x == 0 \/ (0 <= n)%Z ->
  py_pow x n = Ok (x ^ n).
Proof.
  intros Hn Hv H. unfold py_pow. rewrite Hn, Hv.
  destruct H as [H | H].
  - destruct (Qeq_bool_reflect x 0); [contradiction |].
    now rewrite andb_false_r.
  - destruct (Z.ltb_spec n 0); [lia | reflexivity].
Qed.

Lemma Qpower_opp_one (x : Q) (n : Z) : x ^ n == 1 -> x ^ (- n) == 1.
Proof. intros H. rewrite Qpower_opp, H. reflexivity. Qed.

Lemma py_add_one_cases (x : Q) : py_add_one x = 1 \/ py_add_one x = 1 + x.
Proof.
  unfold py_add_one.
  destruct (Qle_bool (- (1 # 2 ^ 54)) x && Qle_bool x (1 # 2 ^ 53)); auto.
Qed.

(** A monthly rate of a millionth or more is not absorbed. *)
Lemma py_add_one_regular (x : Q) : 1 # 1000000 <= x -> py_add_one x = 1 + x.
Proof.
  intros H. unfold py_add_one.
  destruct (Qle_bool_reflect x (1 # 2 ^ 53)) as [H' |].
  - exfalso. assert (Hlt : (1 # 2 ^ 53) < (1 # 1000000)) by reflexivity. lra.
  - now rewrite andb_false_r.
Qed.

(** The power of the sum the code computes is 1 whenever the exact one
    is. *)
Lemma factor_one (x : Q) (n : Z) : (1 + x) ^ n == 1 -> py_add_one x ^ n == 1.
Proof.
  intros H. destruct (py_add_one_cases x) as [-> | ->]; [apply Qpower_1 | exact H].
Qed.

(** The three formulas divide by an annuity factor that vanishes exactly
    when [(1 + i)^n] is 1: whatever was raised before it, the division
    raises. *)
Lemma sip_formula_degenerate (target : Q) (years : Z) (rate : Q) :
  (1 + rate / 1200) ^ (years * 12) == 1 ->
  exists e : exn, sip_formula target years rate = Raise e.
Proof.
  intros H. unfold sip_formula.
  destruct (monthly_rate_cases rate) as [-> | ->]; [eauto |].
  cbn [mbind result_bind].
  destruct (py_mul_float_cases target (rate / 1200)) as [-> | ->]; [eauto |].
  cbn [mbind result_bind].
  destruct (py_pow_cases (py_add_one (rate / 1200)) (years * 12)) as [[e ->] | ->];
    [eauto |].
  cbn [mbind result_bind].
  exists ZeroDivisionError. apply py_truediv_zero. rewrite (factor_one _ _ H). ring.
Qed.

Lemma swp_formula_degenerate (corpus : Q) (years : Z) (rate : Q) :
  (1 + rate / 1200) ^ (years * 12) == 1 ->
  exists e : exn, swp_formula corpus years rate = Raise e.
Proof.
  intros H. unfold swp_formula.
  destruct (monthly_rate_cases rate) as [-> | ->]; [eauto |].
  cbn [mbind result_bind].
  destruct (py_mul_float_cases corpus (rate / 1200)) as [-> | ->]; [eauto |].
  cbn [mbind result_bind].
  destruct (py_pow_cases (py_add_one (rate / 1200)) (- (years * 12)))
    as [[e ->] | ->]; [eauto |].
  cbn [mbind result_bind].
  exists ZeroDivisionError. apply py_truediv_zero.
  rewrite (Qpower_opp_one _ _ (factor_one _ _ H)). ring.
Qed.

Lemma emi_formula_degenerate (principal : Q) (rate : Q) (years : Z) :
  (1 + rate / 1200) ^ (years * 12) == 1 ->
  exists e : exn, emi_formula principal rate years = Raise e.
Proof.
  intros H. unfold emi_formula.
  destruct (monthly_rate_cases rate) as [-> | ->]; [eauto |].
  cbn [mbind result_bind].
  destruct (py_mul_float_cases principal (rate / 1200)) as [-> | ->]; [eauto |].
  cbn [mbind result_bind].
  destruct (py_pow_cases (py_add_one (rate / 1200)) (years * 12)) as [[e ->] | ->];
    [eauto |].
  cbn [mbind result_bind].
  exists ZeroDivisionError. apply py_truediv_zero. rewrite (factor_one _ _ H). ring.
Qed.

Lemma degenerate_factor (years : Z) (rate : Q) :
  years = 0%Z \/ rate == 0 \/ (1 + rate / 1200) ^ (years * 12) - 1 == 0 ->
  (1 + rate / 1200) ^ (years * 12) == 1.
Proof.
  intros [-> | [H | H]].
  - reflexivity.
  - assert (E : 1 + rate / 1200 == 1) by (rewrite H; reflexivity).
    rewrite E. apply Qpower_1.
  - lra.
Qed.

(** C6.  With zero years or a zero rate, and more generally whenever the
    annuity factor [(1+i)^n - 1] is zero, the division raises and
    [calculate_sip], [calculate_swp] and [calculate_emi] each return 0
    instead of letting the exception out. *)
Theorem annuity_degenerate_returns_zero (target corpus principal : Q)
    (years : Z) (rate : Q) :
  years = 0%Z \/ rate == 0 \/ (1 + rate / 1200) ^ (years * 12) - 1 == 0 ->
  returns (calculate_sip target years rate) 0 /\
  returns (calculate_swp corpus years rate) 0 /\
  returns (calculate_emi principal rate years) 0.
Proof.
  intros H. apply degenerate_factor in H.
  destruct (sip_formula_degenerate target years rate H) as [e1 E1].
  destruct (swp_formula_degenerate corpus years rate H) as [e2 E2].
  destruct (emi_formula_degenerate principal rate years H) as [e3 E3].
  split; [| split].
  - exact (returns_guarded_raise _ "SIP Error" 0 e1 E1).
  - exact (returns_guarded_raise _ "SWP Error" 0 e2 E2).
  - exact (returns_guarded_raise _ "EMI Error" 0 e3 E3).
Qed.

Lemma annuity_degenerate_returns_zero_witness :
  (0%Z = 0%Z \/ 12 == 0 \/ (1 + 12 / 1200) ^ (0 * 12) - 1 == 0) /\
  returns (calculate_sip 5000000 0 12) 0 /\
  returns (calculate_swp 5000000 0 12) 0 /\
  returns (calculate_emi 5000000 12 0) 0.
Proof.
  split; [left; reflexivity |].
  apply (annuity_degenerate_returns_zero 5000000 5000000 5000000 0 12).
  left. reflexivity.
Defined.

(** The same at a zero rate, for the dashboard's other defaults. *)
Example calculate_sip_zero_rate : returns (calculate_sip 5000000 10 0) 0.
Proof.
  destruct (sip_formula_degenerate 5000000 10 0) as [e E].
  { apply degenerate_factor. right. left. reflexivity. }
  exact (returns_guarded_raise _ "SIP Error" 0 e E).
Qed.

(** *** Terms and rates of ordinary size *)

Lemma Qpower_base_le (a b : Q) (n : Z) :
  0 <= a -> a <= b -> (0 <= n)%Z -> a ^ n <= b ^ n.
Proof.
  intros Ha Hab Hn. revert n Hn. apply natlike_ind.
  - simpl. lra.
  - intros n Hn IH.
    destruct (Qeq_dec a 0) as [Hz | Hz].
    + assert (E : a ^ Z.succ n == 0) by (rewrite Hz; apply Qpower_0; lia).
      rewrite E. apply Qpower_0_le. lra.
    + assert (Hb : ~ b == 0) by (intros E; apply Hz; lra).
      unfold Z.succ. rewrite !Qpower_plus by assumption. rewrite !Qpower_1_r.
      pose proof (Qpower_0_le a n Ha) as Han.
      apply Qle_trans with (b ^ n * a).
      * apply Qmult_le_compat_r; assumption.
      * assert (0 <= b ^ n) by lra.
        rewrite !(Qmult_comm (b ^ n)). apply Qmult_le_compat_r; assumption.
Qed.

(** A rate of 100 over 100 years grows a sum by less than [10^42]. *)
Lemma growth_cap_fits : (13 # 12) ^ 1200 < float_limit.
Proof. vm_compute. reflexivity. Qed.

Lemma one_fits : 1 < float_limit.
Proof. reflexivity. Qed.

Lemma months_fit : 1200 < float_limit.
Proof. reflexivity. Qed.

(** The monthly rate and the growth over the term, for up to 100 years at
    a rate from 0.01 to 100: nothing is absorbed, nothing overflows and
    nothing is divided by zero. *)
Lemma regular_growth (years : Z) (rate : Q) :
  (1 <= years <= 100)%Z -> 1 # 100 <= rate <= 100 ->
  let growth := (1 + rate / 1200) ^ (years * 12) in
  0 < rate / 1200 /\ 1 < growth /\
  Z.of_nat (Z.to_nat (years * 12)) = (years * 12)%Z /\
  py_truediv_int rate 1200 = Ok (rate / 1200) /\
  py_add_one (rate / 1200) = 1 + rate / 1200 /\
  py_pow (1 + rate / 1200) (years * 12) = Ok growth /\
  py_pow (1 + rate / 1200) (- (years * 12))
  = Ok ((1 + rate / 1200) ^ (- (years * 12))).
Proof.
  intros Hy [Hr Hr'] growth.
  assert (Hi : 0 < rate / 1200) by (apply Qlt_shift_div_l; lra).
  assert (Hi0 : 1 # 1000000 <= rate / 1200) by (apply Qle_shift_div_l; lra).
  assert (Hi' : rate / 1200 <= 1 # 12) by (apply Qle_shift_div_r; lra).
  assert (Hg : 1 < growth) by (apply Qpower_1_lt; [lra | lia]).
  assert (Hcap : growth <= (13 # 12) ^ 1200).
  { apply Qle_trans with ((13 # 12) ^ (years * 12)).
    - apply Qpower_base_le; [lra | lra | lia].
    - apply Qpower_le_compat_l; [lia | lra]. }
  assert (Hn : float_overflows (inject_Z (years * 12)) = false
               /\ float_overflows (inject_Z (- (years * 12))) = false).
  { split; apply (fits 1200 _ months_fit);
      change 1200 with (inject_Z 1200);
      change (- inject_Z 1200) with (inject_Z (- 1200));
      rewrite <- !Zle_Qle; lia. }
  destruct Hn as [Hn Hn'].
  split; [exact Hi |]. split; [exact Hg |].
  split; [apply Z2Nat.id; lia |].
  split; [| split; [now apply py_add_one_regular | split]].
  - unfold py_truediv_int. change (Qeq_bool 1200 0) with false. cbv iota.
    rewrite (fits 1 _ one_fits); [reflexivity | lra].
  - apply py_pow_fits; [exact Hn | | left; lra].
    pose proof growth_cap_fits as Hfit. revert Hfit Hcap.
    generalize ((13 # 12) ^ 1200). intros cap Hfit Hcap.
    apply (fits cap _ Hfit). fold growth. lra.
  - apply py_pow_fits; [exact Hn' | | left; lra].
    assert (Hinv : 0 < / growth < 1).
    { split; [apply Qinv_lt_0_compat; lra |].
      apply Qinv_lt_contravar in Hg; [exact Hg | lra | lra]. }
    apply (fits 1 _ one_fits). rewrite Qpower_opp. fold growth. lra.
Qed.

Lemma ordinary_amount_fits (x : Q) : ordinary_amount x -> float_overflows x = false.
Proof.
  intros [H1 H2]. apply (fits 2000000000000000 _ moderate_fits). lra.
Qed.

Lemma moderate_amount_fits (x : Q) : moderate x -> float_overflows x = false.
Proof.
  intros [H1 H2]. apply (fits 2000000000000000 _ moderate_fits). lra.
Qed.

Lemma to_float_moderate (x : Q) : moderate x -> to_float x = Ok x.
Proof. intros H. unfold to_float. now rewrite moderate_amount_fits. Qed.

Lemma ordinary_term (years : Z) (rate : Q) :
  ordinary_years years -> ordinary_rate rate ->
  (1 <= years <= 100)%Z /\ 1 # 100 <= rate <= 100.
Proof. intros [H1 H2] [H3 H4]. split; [lia | lra]. Qed.

Lemma sip_formula_regular (target : Q) (years : Z) (rate : Q) :
  (1 <= years <= 100)%Z -> 1 # 100 <= rate <= 100 ->
  float_overflows target = false ->
  sip_formula target years rate
  = Ok (target * (rate / 1200) / ((1 + rate / 1200) ^ (years * 12) - 1)).
Proof.
  intros Hy Hr Ht.
  destruct (regular_growth years rate Hy Hr) as (Hi & Hg & _ & Em & Ea & Eg & _).
  unfold sip_formula, py_mul_float, to_float. rewrite Em. cbn [mbind result_bind].
  rewrite Ht. cbn [mbind result_bind]. rewrite Ea, Eg. cbn [mbind result_bind].
  apply py_truediv_nonzero. lra.
Qed.

Lemma swp_formula_regular (corpus : Q) (years : Z) (rate : Q) :
  (1 <= years <= 100)%Z -> 1 # 100 <= rate <= 100 ->
  float_overflows corpus = false ->
  swp_formula corpus years rate
  = Ok (corpus * (rate / 1200) / (1 - (1 + rate / 1200) ^ (- (years * 12)))).
Proof.
  intros Hy Hr Ht.
  destruct (regular_growth years rate Hy Hr) as (Hi & Hg & _ & Em & Ea & _ & Ed).
  unfold swp_formula, py_mul_float, to_float. rewrite Em. cbn [mbind result_bind].
  rewrite Ht. cbn [mbind result_bind]. rewrite Ea, Ed. cbn [mbind result_bind].
  apply py_truediv_nonzero. rewrite Qpower_opp.
  assert (Hinv : / (1 + rate / 1200) ^ (years * 12) < 1).
  { apply Qinv_lt_contravar in Hg; [exact Hg | lra | lra]. }
  lra.
Qed.

Lemma emi_formula_regular (principal : Q) (rate : Q) (years : Z) :
  (1 <= years <= 100)%Z -> 1 # 100 <= rate <= 100 ->
  float_overflows principal = false ->
  emi_formula principal rate years
  = Ok (principal * (rate / 1200) * (1 + rate / 1200) ^ (years * 12)
        / ((1 + rate / 1200) ^ (years * 12) - 1)).
Proof.
  intros Hy Hr Ht.
  destruct (regular_growth years rate Hy Hr) as (Hi & Hg & _ & Em & Ea & Eg & _).
  unfold emi_formula, py_mul_float, to_float. rewrite Em. cbn [mbind result_bind].
  rewrite Ht. cbn [mbind result_bind]. rewrite Ea, Eg. cbn [mbind result_bind].
  apply py_truediv_nonzero. lra.
Qed.

(** A rate of 1200000 over 30 years: [1001.0 ** 360] leaves the range of
    binary64, and the instalment is the 0 of the handler. *)
Example calculate_emi_overflow (s : page) :
  calculate_emi 1000000 1200000 30 s = (Ok 0, s ++ [Diag "EMI Error" OverflowError]).
Proof.
  apply (guarded_raise_run (emi_formula 1000000 1200000 30) "EMI Error" 0
           OverflowError s).
  vm_compute. reflexivity.
Qed.

(** A rate of [2^-60]: [1 + rate/1200] is [1.0], the annuity factor
    vanishes as it does at rate 0, and the instalment is the 0 of the
    handler. *)
Example calculate_emi_absorbed_rate (s : page) :
  calculate_emi 100000 (1 # 2 ^ 60) 1 s
  = (Ok 0, s ++ [Diag "EMI Error" ZeroDivisionError]).
Proof.
  apply (guarded_raise_run (emi_formula 100000 (1 # 2 ^ 60) 1) "EMI Error" 0
           ZeroDivisionError s).
  vm_compute. reflexivity.
Qed.

(** Compound growth stays below its own simple-interest bound:
    [(1+i)^n - 1 <= i * n * (1+i)^n]. *)
Lemma growth_bound (i : Q) (n : Z) :
  0 <= i -> (0 <= n)%Z ->
  1 <= (1 + i) ^ n /\ (1 + i) ^ n - 1 <= i * inject_Z n * (1 + i) ^ n.
Proof.
  intros Hi Hn. revert n Hn. apply natlike_ind.
  - simpl. change (inject_Z 0) with 0. split; lra.
  - intros n Hn [Hg IH].
    assert (E : (1 + i) ^ Z.succ n == (1 + i) ^ n * (1 + i)).
    { unfold Z.succ. rewrite Qpower_plus by lra. rewrite Qpower_1_r. reflexivity. }
    assert (EN : inject_Z (Z.succ n) == inject_Z n + 1).
    { unfold Z.succ. rewrite inject_Z_plus. reflexivity. }
    assert (HN : 0 <= inject_Z n).
    { change 0 with (inject_Z 0). now rewrite <- Zle_Qle. }
    rewrite E, EN.
    set (g := (1 + i) ^ n) in *. set (N := inject_Z n) in *.
    assert (0 <= i * g) by (apply Qmult_le_0_compat; lra).
    assert (0 <= i * N) by (apply Qmult_le_0_compat; lra).
    assert (0 <= i * N * g) by (apply Qmult_le_0_compat; lra).
    assert (0 <= i * N * g * i) by (apply Qmult_le_0_compat; lra).
    assert (0 <= i * g * i) by (apply Qmult_le_0_compat; lra).
    split; [lra |].
    assert (R : i * (N + 1) * (g * (1 + i))
                == i * N * g + i * N * g * i + i * g + i * g * i) by ring.
    rewrite R. lra.
Qed.

(** The claim C5 fails at a zero rate: the division raises, [calculate_emi]
    returns 0, and the "interest" is minus the principal. *)
Lemma emi_zero_rate_interest_negative :
  0 < 100000 /\ (0 < 1)%Z /\ 0 <= 0 /\
  returns (calculate_emi 100000 0 1) 0 /\
  total_interest 100000 1 0 < 0.
Proof.
  split; [lra |]. split; [lia |]. split; [lra |]. split.
  - destruct (emi_formula_degenerate 100000 0 1) as [e E].
    { apply degenerate_factor. right. left. reflexivity. }
    exact (returns_guarded_raise _ "EMI Error" 0 e E).
  - reflexivity.
Qed.

(** C5 (amended).  For a principal from 1 to [10^15], a term of 1 to 100
    years and a rate from 0.01 to 100, [calculate_emi] returns an
    instalment whose total interest [emi * months - principal] is not
    negative. *)
Theorem emi_total_interest_nonneg (principal : Q) (rate : Q) (years : Z) :
  1 <= principal <= 1000000000000000 -> (1 <= years <= 100)%Z ->
  1 # 100 <= rate <= 100 ->
  exists emi : Q,
    returns (calculate_emi principal rate years) emi /\
    0 <= total_interest principal years emi.
Proof.
  intros Hp Hy Hr.
  destruct (regular_growth years rate Hy Hr) as (Hi & Hg & _).
  pose proof (emi_formula_regular principal rate years Hy Hr
                (ordinary_amount_fits principal Hp)) as Hemi.
  set (growth := (1 + rate / 1200) ^ (years * 12)) in *.
  exists (principal * (rate / 1200) * growth / (growth - 1)).
  split; [now apply returns_guarded_ok |].
  unfold total_interest.
  destruct (growth_bound (rate / 1200) (years * 12)) as [_ Hb]; [lra | lia |].
  fold growth in Hb.
  set (i := rate / 1200) in *. set (n := inject_Z (years * 12)) in *.
  assert (Hd : 0 < growth - 1) by lra.
  assert (E : principal * i * growth / (growth - 1) * n - principal
              == principal * (i * n * growth - (growth - 1)) / (growth - 1)).
  { field. lra. }
  rewrite E. apply Qle_shift_div_l; [exact Hd |].
  rewrite Qmult_0_l. apply Qmult_le_0_compat; lra.
Qed.

Lemma emi_total_interest_nonneg_witness :
  1 <= 100000 <= 1000000000000000 /\ (1 <= 1 <= 100)%Z /\ 1 # 100 <= 12 <= 100 /\
  exists emi : Q,
    returns (calculate_emi 100000 12 1) emi /\
    0 <= total_interest 100000 1 emi.
Proof.
  split; [lra |]. split; [lia |]. split; [lra |].
  apply (emi_total_interest_nonneg 100000 12 1); [lra | lia | lra].
Defined.

(** ** Goal planning *)

Lemma bind_lift_ok {A B : Type} (a : A) (f : A -> M B) (s : page) :
  (lift (Ok a) ≫= f) s = f a s.
Proof. reflexivity. Qed.

Lemma bind_lift_raise {A B : Type} (e : exn) (f : A -> M B) (s : page) :
  (lift (Raise e) ≫= f) s = (Raise e, s).
Proof. reflexivity. Qed.

Lemma bind_run {A B : Type} (m : M A) (f : A -> M B) (s s' : page) (a : A) :
  m s = (Ok a, s') -> (m ≫= f) s = f a s'.
Proof. intros E. unfold mbind, M_bind. now rewrite E. Qed.

Lemma calculate_sip_run (target : Q) (years : Z) (rate : Q) (s : page) :
  exists s' : page,
    calculate_sip target years rate s = (Ok (sip_value target years rate), s').
Proof. apply guarded_total. Qed.

Lemma calculate_swp_run (corpus : Q) (years : Z) (rate : Q) (s : page) :
  exists s' : page,
    calculate_swp corpus years rate s = (Ok (swp_value corpus years rate), s').
Proof. apply guarded_total. Qed.

Lemma calculate_sip_returns (target : Q) (years : Z) (rate : Q) :
  returns (calculate_sip target years rate) (sip_value target years rate).
Proof. intros s. apply run_guarded. Qed.

Lemma calculate_swp_returns (corpus : Q) (years : Z) (rate : Q) :
  returns (calculate_swp corpus years rate) (swp_value corpus years rate).
Proof. intros s. apply run_guarded. Qed.

Lemma calculate_emi_returns (principal : Q) (rate : Q) (years : Z) :
  returns (calculate_emi principal rate years) (emi_value principal rate years).
Proof. intros s. apply run_guarded. Qed.

(** The body of [create_goal_plan], statement by statement: only the
    projection of the cost can raise. *)
Lemma goal_plan_body_run (goal_type : string) (current_cost : Q) (years : Z)
    (inflation : Q) (s : page) :
  match projected_cost current_cost years inflation with
  | Raise e => goal_plan_body goal_type current_cost years inflation s = (Raise e, s)
  | Ok future_value =>
      goal_plan_body goal_type current_cost years inflation s
      = (Ok {[ "future_value"%string := future_value;
               "monthly_sip"%string := sip_value future_value years 12;
               "monthly_swp"%string := swp_value future_value 10 8 ]},
         snd (calculate_swp future_value 10 8
                (snd (calculate_sip future_value years 12 s))))
  end.
Proof.
  destruct (projected_cost current_cost years inflation) as [future_value | e] eqn:E;
    unfold goal_plan_body; rewrite E.
  - rewrite bind_lift_ok.
    destruct (calculate_sip_run future_value years 12 s) as [s1 E1].
    rewrite E1. cbn [snd].
    destruct (calculate_swp_run future_value 10 8 s1) as [s2 E2].
    rewrite E2. cbn [snd].
    generalize dependent (sip_value future_value years 12).
    generalize dependent (swp_value future_value 10 8).
    intros swp E2 sip E1.
    rewrite (bind_run (calculate_sip future_value years 12) _ s s1 sip E1).
    rewrite (bind_run (calculate_swp future_value 10 8) _ s1 s2 swp E2).
    reflexivity.
  - apply bind_lift_raise.
Qed.

Lemma create_goal_plan_regular_run (goal_type : string) (current_cost : Q)
    (years : Z) (inflation future_value : Q) (s : page) :
  projected_cost current_cost years inflation = Ok future_value ->
  create_goal_plan goal_type current_cost years inflation s
  = (Ok {[ "future_value"%string := future_value;
           "monthly_sip"%string := sip_value future_value years 12;
           "monthly_swp"%string := swp_value future_value 10 8 ]},
     snd (calculate_swp future_value 10 8
            (snd (calculate_sip future_value years 12 s)))).
Proof.
  intros E. unfold create_goal_plan, try_except.
  pose proof (goal_plan_body_run goal_type current_cost years inflation s) as R.
  rewrite E in R. rewrite R. reflexivity.
Qed.

(** A plan whose projection faults is the empty dict, and the page shows
    why. *)
Lemma create_goal_plan_fault_run (goal_type : string) (current_cost : Q)
    (years : Z) (inflation : Q) (e : exn) (s : page) :
  projected_cost current_cost years inflation = Raise e ->
  create_goal_plan goal_type current_cost years inflation s
  = (Ok ∅, s ++ [Diag "Goal Planning Error" e]).
Proof.
  intros E. unfold create_goal_plan, try_except.
  pose proof (goal_plan_body_run goal_type current_cost years inflation s) as R.
  rewrite E in R. rewrite R. reflexivity.
Qed.

Lemma create_goal_plan_fault (goal_type : string) (current_cost : Q) (years : Z)
    (inflation : Q) (e : exn) :
  projected_cost current_cost years inflation = Raise e ->
  returns (create_goal_plan goal_type current_cost years inflation) ∅.
Proof.
  intros E s.
  now rewrite (create_goal_plan_fault_run goal_type _ _ _ e s E).
Qed.

(** The claim C3 fails where the projection faults: zero to a negative
    power raises, and the plan returned has no [future_value] at all. *)
Lemma goal_plan_without_future_value :
  exists plan : gmap string Q,
    returns (create_goal_plan "Home" 1000000 (-1) (-100)) plan /\
    plan !! "future_value"%string = None.
Proof.
  exists ∅. split; [| reflexivity].
  apply (create_goal_plan_fault "Home" 1000000 (-1) (-100) ZeroDivisionError).
  vm_compute. reflexivity.
Qed.

(** It fails in the same way where the projection leaves the range of
    binary64, with a non-negative number of years: an inflation of
    [10^10] over 40 years, or an [int] cost of [10^400]. *)
Example goal_plan_overflow (s : page) :
  create_goal_plan "Home" 1000000 40 10000000000 s
  = (Ok ∅, s ++ [Diag "Goal Planning Error" OverflowError]) /\
  create_goal_plan "Home" (inject_Z (10 ^ 400)) 0 6 s
  = (Ok ∅, s ++ [Diag "Goal Planning Error" OverflowError]).
Proof.
  split.
  - apply (create_goal_plan_fault_run "Home" 1000000 40 10000000000 OverflowError s).
    vm_compute. reflexivity.
  - apply (create_goal_plan_fault_run "Home" (inject_Z (10 ^ 400)) 0 6 OverflowError s).
    vm_compute. reflexivity.
Qed.

Lemma doubling_fits : 2 ^ 100 < float_limit.
Proof. vm_compute. reflexivity. Qed.

(** Up to 100 years at an inflation between -50 and 100: the cost is
    multiplied by a factor between [2^-100] and [2^100]. *)
Lemma projection_regular (current_cost : Q) (years : Z) (inflation : Q) :
  moderate current_cost -> (0 <= years <= 100)%Z -> - (50) <= inflation <= 100 ->
  let growth := py_add_one (inflation / 100) ^ years in
  0 <= growth <= 2 ^ 100 /\
  projected_cost current_cost years inflation = Ok (current_cost * growth).
Proof.
  intros Hc Hy [Hl Hu] growth.
  assert (Hlo : - (1 # 2) <= inflation / 100) by (apply Qle_shift_div_l; lra).
  assert (Hhi : inflation / 100 <= 1) by (apply Qle_shift_div_r; lra).
  assert (Hb : 1 # 2 <= py_add_one (inflation / 100) <= 2).
  { destruct (py_add_one_cases (inflation / 100)) as [-> | ->]; lra. }
  assert (Hg0 : 0 <= growth) by (apply Qpower_0_le; lra).
  assert (Hg : growth <= 2 ^ 100).
  { apply Qle_trans with (2 ^ years).
    - apply Qpower_base_le; [lra | lra | lia].
    - apply Qpower_le_compat_l; [lia | lra]. }
  split; [split; assumption |].
  unfold projected_cost, py_truediv_int. change (Qeq_bool 100 0) with false. cbv iota.
  rewrite (fits 1 _ one_fits) by lra. cbn [mbind result_bind].
  rewrite py_pow_fits.
  - cbn [mbind result_bind]. rewrite (to_float_moderate _ Hc).
    reflexivity.
  - apply (fits 1200 _ months_fit).
    change 1200 with (inject_Z 1200).
    change (- inject_Z 1200) with (inject_Z (- 1200)).
    rewrite <- !Zle_Qle. lia.
  - fold growth. pose proof doubling_fits as Hfit. revert Hfit Hg.
    generalize (2 ^ 100). intros cap Hfit Hg.
    apply (fits cap _ Hfit). lra.
  - left. lra.
Qed.

(** C3 (amended).  For a moderate cost, up to 100 years and an inflation
    between -50 and 100, the plan is the exact composition: the projected
    cost [current_cost * (1 + inflation/100)**years], the SIP for it over
    the same years at 12, and the SWP of it over 10 years at 8. *)
Theorem goal_plan_composition (goal_type : string) (current_cost : Q)
    (years : Z) (inflation : Q) :
  moderate current_cost -> (0 <= years <= 100)%Z -> - (50) <= inflation <= 100 ->
  let future_value := current_cost * py_add_one (inflation / 100) ^ years in
  exists sip swp : Q,
    returns (calculate_sip future_value years 12) sip /\
    returns (calculate_swp future_value 10 8) swp /\
    returns (create_goal_plan goal_type current_cost years inflation)
            {[ "future_value"%string := future_value;
               "monthly_sip"%string := sip;
               "monthly_swp"%string := swp ]}.
Proof.
  intros Hc Hy Hi future_value.
  exists (sip_value future_value years 12), (swp_value future_value 10 8).
  split; [apply calculate_sip_returns |].
  split; [apply calculate_swp_returns |].
  intros s.
  destruct (projection_regular current_cost years inflation Hc Hy Hi) as [_ E].
  cbv zeta in E. fold future_value in E.
  now rewrite (create_goal_plan_regular_run goal_type _ _ _ _ s E).
Qed.

Lemma goal_plan_composition_witness :
  moderate 1000000 /\ (0 <= 10 <= 100)%Z /\ - (50) <= 6 <= 100 /\
  exists sip swp : Q,
    returns (calculate_sip (1000000 * py_add_one (6 / 100) ^ 10) 10 12) sip /\
    returns (calculate_swp (1000000 * py_add_one (6 / 100) ^ 10) 10 8) swp /\
    returns (create_goal_plan "Home" 1000000 10 6)
            {[ "future_value"%string := 1000000 * py_add_one (6 / 100) ^ 10;
               "monthly_sip"%string := sip;
               "monthly_swp"%string := swp ]}.
Proof.
  assert (Hc : moderate 1000000) by (unfold moderate; lra).
  split; [exact Hc |]. split; [lia |]. split; [lra |].
  apply (goal_plan_composition "Home" 1000000 10 6); [exact Hc | lia | lra].
Defined.

(** The figures of the dashboard's default inputs and of the
    specification's example plan, to the rupee. *)
Example sip_of_dashboard_defaults : 21735 < sip_value 5000000 10 12 < 21736.
Proof. split; vm_compute; reflexivity. Qed.

Example swp_of_dashboard_defaults : 60663 < swp_value 5000000 10 8 < 60664.
Proof. split; vm_compute; reflexivity. Qed.

Example emi_of_dashboard_defaults : 55269 < emi_value 5000000 (105 # 10) 15 < 55270.
Proof. split; vm_compute; reflexivity. Qed.

Example future_value_of_example_plan :
  py_add_one (6 / 100) = 1 + 6 / 100 /\
  1790847 < 1000000 * (1 + 6 / 100) ^ 10 < 1790848.
Proof. split; [reflexivity | split; vm_compute; reflexivity]. Qed.

(** An inflation too small to move the sum [1 + inflation/100] leaves the
    cost as it is. *)
Example future_value_absorbed_inflation :
  projected_cost 1000000 10 (1 # 2 ^ 60) = Ok (1000000 * 1 ^ 10).
Proof. vm_compute. reflexivity. Qed.

(** ** Saving suggestions *)

Lemma py_gt_reflect (a b : Q) : reflect (b < a) (py_gt a b).
Proof.
  unfold py_gt. destruct (Qle_bool_reflect a b) as [H | H]; constructor; lra.
Qed.

Lemma tax_saving_options_returns (income : Q) :
  returns (tax_saving_options income)
          ((if py_gt income 1500000 then [elss_suggestion] else []) ++
           (if py_gt income 700000 then [health_suggestion] else []) ++
           (if py_gt income 500000 then [nps_suggestion] else [])).
Proof.
  intros s. unfold tax_saving_options, try_except.
  destruct (py_gt income 1500000), (py_gt income 700000),
    (py_gt income 500000); reflexivity.
Qed.

(** C8.  The three thresholds are tested one after the other, each on its
    own: a suggestion is in the list exactly when the income is above its
    threshold, nothing else is in the list, an income of 1600000 gets all
    three and an income of 400000 gets none. *)
Theorem tax_saving_options_thresholds :
  (forall income : Q,
     exists suggestions : list string,
       returns (tax_saving_options income) suggestions /\
       (In elss_suggestion suggestions <-> 1500000 < income) /\
       (In health_suggestion suggestions <-> 700000 < income) /\
       (In nps_suggestion suggestions <-> 500000 < income) /\
       incl suggestions [elss_suggestion; health_suggestion; nps_suggestion]) /\
  returns (tax_saving_options 1600000)
          [elss_suggestion; health_suggestion; nps_suggestion] /\
  returns (tax_saving_options 400000) [].
Proof.
  split; [| split; intros s; reflexivity].
  intros income. eexists. split; [apply tax_saving_options_returns |].
  unfold incl.
  destruct (py_gt_reflect income 1500000), (py_gt_reflect income 700000),
    (py_gt_reflect income 500000); simpl;
    repeat split; intros; try lra; try tauto;
    repeat match goal with
           | H : _ \/ _ |- _ => destruct H
           | H : False |- _ => destruct H
           | H : @eq string _ _ |- _ => discriminate H
           end.
Qed.

(** ** Risk profile *)

(** [floor_sqrt] and [ceil_sqrt] bracket the real square root: stated on
    squares, so that no real number is needed. *)
Lemma floor_sqrt_spec (x : Q) :
  0 <= x ->
  let f := inject_Z (floor_sqrt x) in
  0 <= f /\ f * f <= x /\ x < (f + 1) * (f + 1).
Proof.
  intros Hx f. unfold f, floor_sqrt.
  assert (Hf : (0 <= Qfloor x)%Z).
  { change 0%Z with (Qfloor 0). now apply Qfloor_resp_le. }
  destruct (Z.sqrt_spec (Qfloor x) Hf) as [Hlo Hhi].
  set (r := Z.sqrt (Qfloor x)) in *.
  assert (Hr : (0 <= r)%Z) by apply Z.sqrt_nonneg.
  pose proof (Qfloor_le x) as Hfl. pose proof (Qlt_floor x) as Hfu.
  rewrite Zle_Qle in Hlo, Hr. rewrite inject_Z_mult in Hlo.
  assert (Hhi' : (Qfloor x + 1 <= Z.succ r * Z.succ r)%Z) by lia.
  rewrite Zle_Qle, inject_Z_mult in Hhi'. unfold Z.succ in Hhi'.
  rewrite !inject_Z_plus in Hhi'. rewrite inject_Z_plus in Hfu.
  change (inject_Z 1) with 1 in *. change (inject_Z 0) with 0 in *.
  repeat split; lra.
Qed.

Lemma ceil_sqrt_spec (x : Q) :
  0 < x ->
  let c := inject_Z (ceil_sqrt x) in
  1 <= c /\ (c - 1) * (c - 1) < x /\ x <= c * c.
Proof.
  intros Hx c. unfold c, ceil_sqrt.
  pose proof (Qle_ceiling x) as Hcu. pose proof (Qceiling_lt x) as Hcl.
  assert (Hk : (0 < Qceiling x)%Z).
  { rewrite Zlt_Qlt. change (inject_Z 0) with 0. lra. }
  destruct (Z.sqrt_up_spec (Qceiling x) Hk) as [Hlo Hhi].
  set (r := Z.sqrt_up (Qceiling x)) in *.
  assert (Hr : (1 <= r)%Z) by nia.
  assert (Hlo' : ((r - 1) * (r - 1) <= Qceiling x - 1)%Z).
  { replace (r - 1)%Z with (Z.pred r) by lia. lia. }
  rewrite Zle_Qle, inject_Z_mult in Hlo', Hhi. rewrite Zle_Qle in Hr.
  unfold Z.sub in Hlo', Hcl. rewrite !inject_Z_plus in Hlo'. rewrite inject_Z_plus in Hcl.
  change (inject_Z (Z.opp 1)) with (-1) in *. change (inject_Z 1) with 1 in *.
  repeat split; lra.
Qed.

Lemma Qsum_squares_nonneg (avg : Q) (qs : list Q) :
  0 <= Qsum (List.map (fun x => (avg - x) * (avg - x)) qs).
Proof.
  induction qs as [| q qs IH]; simpl; [lra |].
  pose proof (Qsqr_nonneg (avg - q)) as H. simpl in H. nra.
Qed.

(** A variance, when it is a number, is not negative: the radicand of the
    volatility is the square of a real number. *)
Lemma nanvar_nonneg (xs : list npfloat) (v : Q) : nanvar xs = Some v -> 0 <= v.
Proof.
  unfold nanvar. destruct (Nat.leb_spec (List.length (dropna xs)) 1) as [| Hc];
    [discriminate |].
  destruct (all_finite (dropna xs)) as [qs |]; [| discriminate].
  intros [= <-].
  apply Qle_shift_div_l.
  - change 0 with (inject_Z 0). rewrite <- Zlt_Qlt. lia.
  - rewrite Qmult_0_l. apply Qsum_squares_nonneg.
Qed.

Lemma risk_profile_returns (self : FinancialGuru) :
  returns (_calculate_risk_profile self)
          (match risk_profile_body self with Ok v => v | Raise _ => 5%Z end).
Proof.
  intros s. unfold _calculate_risk_profile, try_except, lift.
  destruct (risk_profile_body self); reflexivity.
Qed.

Lemma risk_profile_reports_nothing (self : FinancialGuru) (s : page) :
  snd (_calculate_risk_profile self s) = s.
Proof.
  unfold _calculate_risk_profile, try_except, lift.
  destruct (risk_profile_body self); reflexivity.
Qed.

Lemma py_min_int_le (a b : Z) : (py_min_int a b <= b)%Z /\ (py_min_int a b <= a)%Z.
Proof. unfold py_min_int. destruct (Z.ltb_spec b a); lia. Qed.

(** The body on a non-empty series whose volatility is a number. *)
Lemma risk_profile_body_scored (self : FinancialGuru) (prices : PriceSeries) (v : Q) :
  nifty50 self = Some prices -> prices <> [] ->
  annual_volatility prices = Sqrt v ->
  let x := v * (100 * 100) in
  risk_profile_body self
  = Ok (py_min_int (if Qle_bool x 100 then 10 - ceil_sqrt x else 10 - floor_sqrt x) 10).
Proof.
  intros Hself Hne Hvol x. unfold risk_profile_body. rewrite Hself. simpl.
  destruct prices as [| p rest]; [contradiction |]. simpl negb. cbv iota.
  rewrite Hvol. unfold root_scale, int_sub_root. fold x.
  change ((0 <=? 10)%Z && Qle_bool x (inject_Z (10 * 10))) with (Qle_bool x 100).
  destruct (Qle_bool x 100); reflexivity.
Qed.

(** The claim C4 fails below: nothing clamps the score at 0.  A series
    that doubles and halves has an annualised volatility near 16.8, and
    [int(10 - 1683.7...)] is -1673. *)
Lemma risk_profile_negative :
  returns (_calculate_risk_profile (holding [100; 200; 100])) (-1673)%Z /\
  ~ (0 <= -1673 <= 10)%Z.
Proof.
  split; [| lia].
  exact (risk_profile_returns (holding [100; 200; 100])).
Qed.

(** C7.  An empty series and a series of one sample score the neutral 5,
    and so does every run whose computation raises (the standard
    deviation of fewer than two changes is NaN, which [int] refuses). *)
Theorem risk_profile_neutral_default :
  returns (_calculate_risk_profile (holding [])) 5%Z /\
  (forall p : Q, returns (_calculate_risk_profile (holding [p])) 5%Z) /\
  (forall (self : FinancialGuru) (e : exn),
     risk_profile_body self = Raise e ->
     returns (_calculate_risk_profile self) 5%Z).
Proof.
  split; [exact (risk_profile_returns (holding [])) |].
  split.
  - intros p. exact (risk_profile_returns (holding [p])).
  - intros self e H. pose proof (risk_profile_returns self) as R.
    now rewrite H in R.
Qed.

Lemma risk_profile_neutral_default_witness :
  risk_profile_body (holding [100]) = Raise ValueError /\
  returns (_calculate_risk_profile (holding [100])) 5%Z.
Proof.
  split; [reflexivity |].
  apply (proj2 (proj2 risk_profile_neutral_default) (holding [100]) ValueError).
  reflexivity.
Defined.

(** Two samples give a single change, whose standard deviation is NaN too;
    and during [__init__] the attribute is not there yet. *)
Lemma risk_profile_two_samples (p q : Q) :
  returns (_calculate_risk_profile (holding [p; q])) 5%Z.
Proof.
  assert (E : risk_profile_body (holding [p; q]) = Raise ValueError).
  { unfold risk_profile_body, annual_volatility, std, nanvar, pct_change. simpl.
    destruct (np_sub (np_div q p) 1); reflexivity. }
  pose proof (risk_profile_returns (holding [p; q])) as R. now rewrite E in R.
Qed.

Lemma risk_profile_before_assignment :
  risk_profile_body {| risk_profile := None; nifty50 := None; tax_slabs := None |}
  = Raise AttributeError.
Proof. reflexivity. Qed.

(** C4 (amended).  The risk score is an integer that never exceeds 10,
    whatever the object holds; nothing bounds it from below (a series that
    doubles and halves scores -1673).  A series of fewer than three
    samples, the empty one included, scores 5, and so does every run whose
    computation raises. *)
Theorem risk_profile_bounds :
  (forall self : FinancialGuru,
     exists score : Z,
       returns (_calculate_risk_profile self) score /\ (score <= 10)%Z) /\
  (forall prices : PriceSeries,
     (List.length prices < 3)%nat ->
     returns (_calculate_risk_profile (holding prices)) 5%Z) /\
  (forall (self : FinancialGuru) (e : exn),
     risk_profile_body self = Raise e ->
     returns (_calculate_risk_profile self) 5%Z).
Proof.
  split; [| split].
  - intros self. eexists. split; [apply risk_profile_returns |].
    unfold risk_profile_body.
    destruct (nifty50 self) as [prices |]; simpl; [| lia].
    destruct (negb (empty prices)); [| lia].
    destruct (int_sub_root 10 _) as [score | e]; simpl; [| lia].
    apply py_min_int_le.
  - intros prices H. destruct prices as [| p [| q [| r rest]]]; simpl in H; try lia.
    + exact (risk_profile_returns (holding [])).
    + exact (risk_profile_returns (holding [p])).
    + apply risk_profile_two_samples.
  - intros self e H. pose proof (risk_profile_returns self) as R.
    now rewrite H in R.
Qed.

Lemma risk_profile_bounds_witness :
  (exists score : Z,
     returns (_calculate_risk_profile (holding [100; 200; 100])) score /\
     (score <= 10)%Z) /\
  ((List.length [21900%Q; 22000%Q] < 3)%nat /\
   returns (_calculate_risk_profile (holding [21900; 22000])) 5%Z) /\
  (risk_profile_body (holding [21900]) = Raise ValueError /\
   returns (_calculate_risk_profile (holding [21900])) 5%Z).
Proof.
  split; [exact (proj1 risk_profile_bounds (holding [100; 200; 100])) |].
  split.
  - split; [simpl; lia |].
    apply (proj1 (proj2 risk_profile_bounds) [21900; 22000]). simpl. lia.
  - split; [reflexivity |].
    apply (proj2 (proj2 risk_profile_bounds) (holding [21900]) ValueError).
    reflexivity.
Defined.

(** ** Faults and defaults *)

Lemma calculate_tax_returns (self : FinancialGuru) (income deductions : Q) :
  returns (calculate_tax self income deductions)
          (match tax_body self income deductions with Ok v => v | Raise _ => 0 end).
Proof. intros s. apply run_guarded. Qed.

Lemma create_goal_plan_run (goal_type : string) (current_cost : Q) (years : Z)
    (inflation : Q) (s : page) :
  fst (create_goal_plan goal_type current_cost years inflation s)
  = Ok (match fst (goal_plan_body goal_type current_cost years inflation s) with
        | Ok plan => plan
        | Raise _ => ∅
        end).
Proof.
  unfold create_goal_plan, try_except.
  destruct (goal_plan_body goal_type current_cost years inflation s) as [[plan | e] s'];
    reflexivity.
Qed.

(** The claim C9 fails for the goal planner: a faulting plan is an empty
    dict, in which no amount, zero or other, can be looked up. *)
Lemma goal_plan_fault_is_valueless :
  fst (goal_plan_body "Retirement" 500000 (-2) (-100) []) = Raise ZeroDivisionError /\
  exists plan : gmap string Q,
    returns (create_goal_plan "Retirement" 500000 (-2) (-100)) plan /\
    plan !! "future_value"%string = None /\
    plan !! "monthly_sip"%string = None /\
    plan !! "monthly_swp"%string = None.
Proof.
  split; [vm_compute; reflexivity |].
  exists ∅. split; [| repeat split].
  apply (create_goal_plan_fault "Retirement" 500000 (-2) (-100) ZeroDivisionError).
  vm_compute. reflexivity.
Qed.

(** C9 (amended).  No operation lets an exception out: each returns the
    value its body computed or, when the body raised, its default, which
    is 0 for [calculate_sip], [calculate_swp], [calculate_emi] and
    [calculate_tax], 5 for the risk profile and the empty dict for
    [create_goal_plan]; [tax_saving_options] always returns a list. *)
Theorem faults_become_defaults :
  (forall (target : Q) (years : Z) (rate : Q),
     returns (calculate_sip target years rate)
             (match sip_formula target years rate with Ok v => v | Raise _ => 0 end)) /\
  (forall (corpus : Q) (years : Z) (rate : Q),
     returns (calculate_swp corpus years rate)
             (match swp_formula corpus years rate with Ok v => v | Raise _ => 0 end)) /\
  (forall (principal rate : Q) (years : Z),
     returns (calculate_emi principal rate years)
             (match emi_formula principal rate years with Ok v => v | Raise _ => 0 end)) /\
  (forall (self : FinancialGuru) (income deductions : Q),
     returns (calculate_tax self income deductions)
             (match tax_body self income deductions with Ok v => v | Raise _ => 0 end)) /\
  (forall income : Q,
     exists suggestions : list string,
       returns (tax_saving_options income) suggestions) /\
  (forall self : FinancialGuru,
     returns (_calculate_risk_profile self)
             (match risk_profile_body self with Ok v => v | Raise _ => 5%Z end)) /\
  (forall (goal_type : string) (current_cost : Q) (years : Z) (inflation : Q)
          (s : page),
     fst (create_goal_plan goal_type current_cost years inflation s)
     = Ok (match fst (goal_plan_body goal_type current_cost years inflation s) with
           | Ok plan => plan
           | Raise _ => ∅
           end)).
Proof.
  split; [exact calculate_sip_returns |].
  split; [exact calculate_swp_returns |].
  split; [exact calculate_emi_returns |].
  split; [exact calculate_tax_returns |].
  split.
  { intros income. eexists. apply tax_saving_options_returns. }
  split; [exact risk_profile_returns |].
  exact create_goal_plan_run.
Qed.

(** * Further properties of the engine *)

(** ** What the annuity formulas achieve *)

Lemma Qpower_of_nat_succ (x : Q) (n : nat) :
  0 < x -> x ^ Z.of_nat (S n) == x ^ Z.of_nat n * x.
Proof.
  intros Hx. rewrite Nat2Z.inj_succ. unfold Z.succ.
  rewrite Qpower_plus by lra. now rewrite Qpower_1_r.
Qed.

Lemma sip_balance_closed (i c : Q) (n : nat) :
  0 < 1 + i ->
  sip_balance i c n * i == c * ((1 + i) ^ Z.of_nat n - 1).
Proof.
  intros Hi. induction n as [| n IH].
  - simpl. ring.
  - rewrite Qpower_of_nat_succ by exact Hi.
    change (sip_balance i c (S n)) with (sip_balance i c n * (1 + i) + c).
    assert (E : (sip_balance i c n * (1 + i) + c) * i
                == sip_balance i c n * i * (1 + i) + c * i) by ring.
    rewrite E, IH. ring.
Qed.

Lemma balance_after_closed (i w b : Q) (n : nat) :
  0 < 1 + i ->
  balance_after i w b n * i
  == b * (1 + i) ^ Z.of_nat n * i - w * ((1 + i) ^ Z.of_nat n - 1).
Proof.
  intros Hi. induction n as [| n IH].
  - simpl. ring.
  - rewrite Qpower_of_nat_succ by exact Hi.
    change (balance_after i w b (S n)) with (balance_after i w b n * (1 + i) - w).
    assert (E : (balance_after i w b n * (1 + i) - w) * i
                == balance_after i w b n * i * (1 + i) - w * i) by ring.
    rewrite E, IH. ring.
Qed.

(** What the three formulas return on inputs of ordinary size. *)
Lemma ordinary_annuity (amount : Q) (years : Z) (rate : Q) :
  ordinary_amount amount -> ordinary_years years -> ordinary_rate rate ->
  let i := rate / 1200 in
  let growth := (1 + i) ^ (years * 12) in
  0 < i /\ 1 < growth /\
  Z.of_nat (Z.to_nat (years * 12)) = (years * 12)%Z /\
  sip_formula amount years rate = Ok (amount * i / (growth - 1)) /\
  swp_formula amount years rate
  = Ok (amount * i / (1 - (1 + i) ^ (- (years * 12)))) /\
  emi_formula amount rate years = Ok (amount * i * growth / (growth - 1)).
Proof.
  intros Ha Hy Hr i growth.
  destruct (ordinary_term years rate Hy Hr) as [Hy' Hr'].
  pose proof (ordinary_amount_fits amount Ha) as Hfit.
  destruct (regular_growth years rate Hy' Hr') as (Hi & Hg & Hn & _).
  split; [exact Hi |]. split; [exact Hg |]. split; [exact Hn |].
  split; [now apply sip_formula_regular |].
  split; [now apply swp_formula_regular | now apply emi_formula_regular].
Qed.

(** X1.  On inputs of ordinary size, paying the instalment
    [calculate_sip] returns at the end of every month of the term, at the
    monthly rate, accumulates the target. *)
Theorem sip_accumulates_target (target : Q) (years : Z) (rate : Q) :
  ordinary_amount target -> ordinary_years years -> ordinary_rate rate ->
  exists sip : Q,
    returns (calculate_sip target years rate) sip /\
    sip_balance (rate / 1200) sip (Z.to_nat (years * 12)) == target.
Proof.
  intros Ha Hy Hr.
  destruct (ordinary_annuity target years rate Ha Hy Hr)
    as (Hi & Hg & Hn & Esip & _).
  eexists. split; [apply returns_guarded_ok; exact Esip |].
  apply (Qmult_inj_r _ _ (rate / 1200)); [lra |].
  rewrite sip_balance_closed by lra. rewrite Hn.
  field. lra.
Qed.

Lemma sip_accumulates_target_witness :
  ordinary_amount 120000 /\ ordinary_years 1 /\ ordinary_rate 12 /\
  exists sip : Q,
    returns (calculate_sip 120000 1 12) sip /\
    sip_balance (12 / 1200) sip (Z.to_nat (1 * 12)) == 120000.
Proof.
  assert (Ha : ordinary_amount 120000) by (unfold ordinary_amount; lra).
  assert (Hy : ordinary_years 1) by (unfold ordinary_years; lia).
  assert (Hr : ordinary_rate 12) by (unfold ordinary_rate; lra).
  split; [exact Ha |]. split; [exact Hy |]. split; [exact Hr |].
  apply (sip_accumulates_target 120000 1 12 Ha Hy Hr).
Defined.

(** X2.  On inputs of ordinary size, withdrawing what [calculate_swp]
    returns at the end of every month of the term, from a corpus that
    earns the monthly rate, leaves nothing after the last withdrawal. *)
Theorem swp_exhausts_corpus (corpus : Q) (years : Z) (rate : Q) :
  ordinary_amount corpus -> ordinary_years years -> ordinary_rate rate ->
  exists swp : Q,
    returns (calculate_swp corpus years rate) swp /\
    balance_after (rate / 1200) swp corpus (Z.to_nat (years * 12)) == 0.
Proof.
  intros Ha Hy Hr.
  destruct (ordinary_annuity corpus years rate Ha Hy Hr)
    as (Hi & Hg & Hn & _ & Eswp & _).
  eexists. split; [apply returns_guarded_ok; exact Eswp |].
  apply (Qmult_inj_r _ _ (rate / 1200)); [lra |].
  rewrite balance_after_closed by lra. rewrite Hn, Qpower_opp.
  field. split; lra.
Qed.

Lemma swp_exhausts_corpus_witness :
  ordinary_amount 500000 /\ ordinary_years 1 /\ ordinary_rate 8 /\
  exists swp : Q,
    returns (calculate_swp 500000 1 8) swp /\
    balance_after (8 / 1200) swp 500000 (Z.to_nat (1 * 12)) == 0.
Proof.
  assert (Ha : ordinary_amount 500000) by (unfold ordinary_amount; lra).
  assert (Hy : ordinary_years 1) by (unfold ordinary_years; lia).
  assert (Hr : ordinary_rate 8) by (unfold ordinary_rate; lra).
  split; [exact Ha |]. split; [exact Hy |]. split; [exact Hr |].
  apply (swp_exhausts_corpus 500000 1 8 Ha Hy Hr).
Defined.

(** X3.  On inputs of ordinary size [calculate_emi] and [calculate_swp]
    return the same amount for the same sum, term and rate: the instalment
    that repays a loan is the withdrawal that exhausts a corpus of that
    size. *)
Theorem emi_equals_swp (amount rate : Q) (years : Z) :
  ordinary_amount amount -> ordinary_years years -> ordinary_rate rate ->
  exists emi swp : Q,
    returns (calculate_emi amount rate years) emi /\
    returns (calculate_swp amount years rate) swp /\
    emi == swp.
Proof.
  intros Ha Hy Hr.
  destruct (ordinary_annuity amount years rate Ha Hy Hr)
    as (Hi & Hg & _ & _ & Eswp & Eemi).
  eexists. eexists.
  split; [apply returns_guarded_ok; exact Eemi |].
  split; [apply returns_guarded_ok; exact Eswp |].
  rewrite Qpower_opp. field. split; lra.
Qed.

Lemma emi_equals_swp_witness :
  ordinary_amount 5000000 /\ ordinary_years 15 /\ ordinary_rate (105 # 10) /\
  exists emi swp : Q,
    returns (calculate_emi 5000000 (105 # 10) 15) emi /\
    returns (calculate_swp 5000000 15 (105 # 10)) swp /\
    emi == swp.
Proof.
  assert (Ha : ordinary_amount 5000000) by (unfold ordinary_amount; lra).
  assert (Hy : ordinary_years 15) by (unfold ordinary_years; lia).
  assert (Hr : ordinary_rate (105 # 10)) by (unfold ordinary_rate; lra).
  split; [exact Ha |]. split; [exact Hy |]. split; [exact Hr |].
  apply (emi_equals_swp 5000000 (105 # 10) 15 Ha Hy Hr).
Defined.

(** Away from ordinary inputs the two can part: at a rate of -1200 over a
    negative term the loan formula raises on zero to a negative power and
    the other does not. *)
Example emi_and_swp_part :
  returns (calculate_emi 1000 (-1200) (-1)) 0 /\
  exists swp : Q, returns (calculate_swp 1000 (-1) (-1200)) swp /\ swp == -1000.
Proof.
  split.
  - apply (returns_guarded_raise (emi_formula 1000 (-1200) (-1)) "EMI Error" 0
             ZeroDivisionError).
    vm_compute. reflexivity.
  - eexists. split.
    + apply (returns_guarded_ok (swp_formula 1000 (-1) (-1200)) "SWP Error" 0).
      vm_compute. reflexivity.
    + reflexivity.
Qed.

(** X4.  On inputs of ordinary size, for the same sum, term and rate, the
    withdrawal exceeds the instalment of [calculate_sip] by one month's
    interest on the sum. *)
Theorem swp_minus_sip_is_interest (amount : Q) (years : Z) (rate : Q) :
  ordinary_amount amount -> ordinary_years years -> ordinary_rate rate ->
  exists swp sip : Q,
    returns (calculate_swp amount years rate) swp /\
    returns (calculate_sip amount years rate) sip /\
    swp - sip == amount * (rate / 1200).
Proof.
  intros Ha Hy Hr.
  destruct (ordinary_annuity amount years rate Ha Hy Hr)
    as (Hi & Hg & _ & Esip & Eswp & _).
  eexists. eexists.
  split; [apply returns_guarded_ok; exact Eswp |].
  split; [apply returns_guarded_ok; exact Esip |].
  rewrite Qpower_opp. field. split; lra.
Qed.

Lemma swp_minus_sip_is_interest_witness :
  ordinary_amount 5000000 /\ ordinary_years 10 /\ ordinary_rate 12 /\
  exists swp sip : Q,
    returns (calculate_swp 5000000 10 12) swp /\
    returns (calculate_sip 5000000 10 12) sip /\
    swp - sip == 5000000 * (12 / 1200).
Proof.
  assert (Ha : ordinary_amount 5000000) by (unfold ordinary_amount; lra).
  assert (Hy : ordinary_years 10) by (unfold ordinary_years; lia).
  assert (Hr : ordinary_rate 12) by (unfold ordinary_rate; lra).
  split; [exact Ha |]. split; [exact Hy |]. split; [exact Hr |].
  apply (swp_minus_sip_is_interest 5000000 10 12 Ha Hy Hr).
Defined.

(** X5.  On inputs of ordinary size, every instalment [calculate_emi]
    returns exceeds the first month's interest, and paying it at the end
    of every month of the term brings the loan to zero. *)
Theorem emi_amortises_loan (principal rate : Q) (years : Z) :
  ordinary_amount principal -> ordinary_years years -> ordinary_rate rate ->
  exists emi : Q,
    returns (calculate_emi principal rate years) emi /\
    principal * (rate / 1200) < emi /\
    balance_after (rate / 1200) emi principal (Z.to_nat (years * 12)) == 0.
Proof.
  intros Ha Hy Hr.
  destruct (ordinary_annuity principal years rate Ha Hy Hr)
    as (Hi & Hg & Hn & _ & _ & Eemi).
  destruct Ha as [Hp _].
  eexists. split; [apply returns_guarded_ok; exact Eemi |].
  set (i := rate / 1200) in *. set (g := (1 + i) ^ (years * 12)) in *.
  split.
  - apply Qlt_shift_div_l; [lra |].
    assert (0 < principal * i) by (apply Qmult_lt_0_compat; lra).
    assert (E : principal * i * g == principal * i * (g - 1) + principal * i) by ring.
    lra.
  - apply (Qmult_inj_r _ _ i); [lra |].
    rewrite balance_after_closed by lra. rewrite Hn. fold g.
    field. lra.
Qed.

Lemma emi_amortises_loan_witness :
  ordinary_amount 100000 /\ ordinary_years 1 /\ ordinary_rate 12 /\
  exists emi : Q,
    returns (calculate_emi 100000 12 1) emi /\
    100000 * (12 / 1200) < emi /\
    balance_after (12 / 1200) emi 100000 (Z.to_nat (1 * 12)) == 0.
Proof.
  assert (Ha : ordinary_amount 100000) by (unfold ordinary_amount; lra).
  assert (Hy : ordinary_years 1) by (unfold ordinary_years; lia).
  assert (Hr : ordinary_rate 12) by (unfold ordinary_rate; lra).
  split; [exact Ha |]. split; [exact Hy |]. split; [exact Hr |].
  apply (emi_amortises_loan 100000 12 1 Ha Hy Hr).
Defined.

(** Compound growth is at least simple growth. *)
Lemma bernoulli (i : Q) (n : Z) :
  0 <= i -> (0 <= n)%Z -> 1 + inject_Z n * i <= (1 + i) ^ n.
Proof.
  intros Hi Hn. revert n Hn. apply natlike_ind.
  - simpl. change (inject_Z 0) with 0. lra.
  - intros n Hn IH.
    assert (E : (1 + i) ^ Z.succ n == (1 + i) ^ n * (1 + i)).
    { unfold Z.succ. rewrite Qpower_plus by lra. rewrite Qpower_1_r. reflexivity. }
    assert (EN : inject_Z (Z.succ n) == inject_Z n + 1).
    { unfold Z.succ. rewrite inject_Z_plus. reflexivity. }
    assert (HN : 0 <= inject_Z n).
    { change 0 with (inject_Z 0). now rewrite <- Zle_Qle. }
    rewrite E, EN. set (g := (1 + i) ^ n) in *. set (N := inject_Z n) in *.
    assert (0 <= N * i * i).
    { apply Qmult_le_0_compat; [apply Qmult_le_0_compat |]; lra. }
    assert (H1 : (1 + N * i) * (1 + i) <= g * (1 + i)).
    { apply Qmult_le_compat_r; lra. }
    assert (E2 : (1 + N * i) * (1 + i) == 1 + (N + 1) * i + N * i * i) by ring.
    lra.
Qed.

(** X6.  On inputs of ordinary size the contributions [calculate_sip]
    asks for are positive and never add up to more than the target: the
    rest is left to the growth. *)
Theorem sip_contributions_below_target (target : Q) (years : Z) (rate : Q) :
  ordinary_amount target -> ordinary_years years -> ordinary_rate rate ->
  exists sip : Q,
    returns (calculate_sip target years rate) sip /\
    0 < sip /\ sip * inject_Z (years * 12) <= target.
Proof.
  intros Ha Hy Hr.
  destruct (ordinary_annuity target years rate Ha Hy Hr)
    as (Hi & Hg & _ & Esip & _).
  destruct Ha as [Ht _]. destruct Hy as [Hy _].
  eexists. split; [apply returns_guarded_ok; exact Esip |].
  set (i := rate / 1200) in *. set (g := (1 + i) ^ (years * 12)) in *.
  assert (Hti : 0 < target * i) by (apply Qmult_lt_0_compat; lra).
  split.
  - apply Qlt_shift_div_l; lra.
  - pose proof (bernoulli i (years * 12)) as Hb. fold g in Hb.
    assert (Hb' : 1 + inject_Z (years * 12) * i <= g) by (apply Hb; [lra | lia]).
    set (n := inject_Z (years * 12)) in *.
    assert (E : target * i / (g - 1) * n == target * (n * i) / (g - 1))
      by (field; lra).
    rewrite E. apply Qle_shift_div_r; [lra |].
    assert (Hm : target * (n * i) <= target * (g - 1))
      by (apply Qmult_le_l; lra).
    exact Hm.
Qed.

Lemma sip_contributions_below_target_witness :
  ordinary_amount 5000000 /\ ordinary_years 10 /\ ordinary_rate 12 /\
  exists sip : Q,
    returns (calculate_sip 5000000 10 12) sip /\
    0 < sip /\ sip * inject_Z (10 * 12) <= 5000000.
Proof.
  assert (Ha : ordinary_amount 5000000) by (unfold ordinary_amount; lra).
  assert (Hy : ordinary_years 10) by (unfold ordinary_years; lia).
  assert (Hr : ordinary_rate 12) by (unfold ordinary_rate; lra).
  split; [exact Ha |]. split; [exact Hy |]. split; [exact Hr |].
  apply (sip_contributions_below_target 5000000 10 12 Ha Hy Hr).
Defined.

(** ** The tax on the default table *)

Lemma slab_walk_IND (taxable : Q) :
  slab_walk IND taxable == effective_schedule taxable.
Proof.
  unfold IND, effective_schedule, slab_walk. rewrite <- !py_min_Qmin. unfold py_min.
  repeat match goal with
         | |- context [Qle_bool ?a ?b] => destruct (Qle_bool_reflect a b)
         | |- context [Qlt_le_dec ?a ?b] => destruct (Qlt_le_dec a b)
         end; lra.
Qed.

Lemma effective_schedule_cap (t : Q) :
  0 <= t -> 0 <= effective_schedule t <= (3 # 10) * t.
Proof.
  intros H0. unfold effective_schedule.
  repeat match goal with
         | |- context [Qle_bool ?a ?b] => destruct (Qle_bool_reflect a b)
         end; lra.
Qed.

Lemma effective_schedule_zero (t : Q) :
  effective_schedule t == 0 <-> t <= 250000.
Proof.
  unfold effective_schedule.
  repeat match goal with
         | |- context [Qle_bool ?a ?b] => destruct (Qle_bool_reflect a b)
         end; split; intros; lra.
Qed.

Lemma calculate_tax_schedule (index_data : PriceSeries) (income deductions : Q) :
  moderate income -> moderate deductions ->
  exists tax : Q,
    returns (calculate_tax (guru index_data) income deductions) tax /\
    tax == effective_schedule (py_max (income - deductions) 0).
Proof.
  intros Hi Hd.
  destruct (calculate_tax_guru index_data income deductions Hi Hd) as (v & R & E).
  exists v. split; [exact R |]. rewrite E. apply slab_walk_IND.
Qed.

(** X7.  On the default table the tax of moderate amounts is the schedule
    with brackets ending at 250000, 750000 and 1750000 of taxable income:
    nothing on the first 250000, then 5, 20 and 30 percent. *)
Theorem calculate_tax_effective_schedule (index_data : PriceSeries)
    (income deductions : Q) :
  moderate income -> moderate deductions ->
  returnsQ (calculate_tax (guru index_data) income deductions)
           (effective_schedule (py_max (income - deductions) 0)).
Proof.
  intros Hi Hd.
  destruct (calculate_tax_schedule index_data income deductions Hi Hd) as (v & R & E).
  exact (returnsQ_of_returns _ v _ R E).
Qed.

Lemma calculate_tax_effective_schedule_witness :
  moderate 1500000 /\ moderate 150000 /\
  returnsQ (calculate_tax (guru []) 1500000 150000)
           (effective_schedule (py_max (1500000 - 150000) 0)).
Proof.
  assert (Hi : moderate 1500000) by (unfold moderate; lra).
  assert (Hd : moderate 150000) by (unfold moderate; lra).
  split; [exact Hi |]. split; [exact Hd |].
  apply (calculate_tax_effective_schedule [] 1500000 150000 Hi Hd).
Defined.

(** X8.  The tax of moderate amounts is not negative and never exceeds 30
    percent of the taxable income. *)
Theorem calculate_tax_at_most_30_percent (index_data : PriceSeries)
    (income deductions : Q) :
  moderate income -> moderate deductions ->
  exists tax : Q,
    returns (calculate_tax (guru index_data) income deductions) tax /\
    0 <= tax <= (3 # 10) * py_max (income - deductions) 0.
Proof.
  intros Hi Hd.
  destruct (calculate_tax_schedule index_data income deductions Hi Hd) as (v & R & E).
  exists v. split; [exact R |]. rewrite E.
  apply effective_schedule_cap, py_max_zero_nonneg.
Qed.

Lemma calculate_tax_at_most_30_percent_witness :
  moderate 3000000 /\ moderate 0 /\
  exists tax : Q,
    returns (calculate_tax (guru []) 3000000 0) tax /\
    0 <= tax <= (3 # 10) * py_max (3000000 - 0) 0.
Proof.
  assert (Hi : moderate 3000000) by (unfold moderate; lra).
  assert (Hd : moderate 0) by (unfold moderate; lra).
  split; [exact Hi |]. split; [exact Hd |].
  apply (calculate_tax_at_most_30_percent [] 3000000 0 Hi Hd).
Defined.

(** X9.  For whole amounts, no tax is due exactly when income less
    deductions is at most 250000; in particular when the deductions reach
    the income. *)
Theorem calculate_tax_zero_iff (index_data : PriceSeries) (income deductions : Z) :
  moderate (inject_Z income) -> moderate (inject_Z deductions) ->
  exists tax : Q,
    returns (calculate_tax (guru index_data) (inject_Z income) (inject_Z deductions))
            tax /\
    (tax == 0 <-> (income - deductions <= 250000)%Z).
Proof.
  intros Hi Hd.
  destruct (calculate_tax_schedule index_data _ _ Hi Hd) as (v & R & E).
  exists v. split; [exact R |].
  rewrite E, effective_schedule_zero.
  assert (Hz : inject_Z income - inject_Z deductions <= 250000
               <-> (income - deductions <= 250000)%Z).
  { rewrite Zle_Qle. unfold Z.sub. rewrite inject_Z_plus, inject_Z_opp.
    change (inject_Z 250000) with 250000. split; intros H; lra. }
  rewrite <- Hz.
  unfold py_max.
  destruct (Qlt_le_dec (inject_Z income - inject_Z deductions) 0); split; lra.
Qed.

Lemma calculate_tax_zero_iff_witness :
  moderate (inject_Z 400000) /\ moderate (inject_Z 150000) /\
  exists tax : Q,
    returns (calculate_tax (guru []) (inject_Z 400000) (inject_Z 150000)) tax /\
    (tax == 0 <-> (400000 - 150000 <= 250000)%Z).
Proof.
  assert (Hi : moderate (inject_Z 400000)) by (unfold moderate; split; discriminate).
  assert (Hd : moderate (inject_Z 150000)) by (unfold moderate; split; discriminate).
  split; [exact Hi |]. split; [exact Hd |].
  apply (calculate_tax_zero_iff [] 400000 150000 Hi Hd).
Defined.

(** X10.  Among moderate amounts, larger deductions never raise the
    tax. *)
Theorem calculate_tax_antitone_in_deductions (index_data : PriceSeries)
    (income d1 d2 : Q) :
  moderate income -> moderate d1 -> moderate d2 ->
  d1 <= d2 ->
  exists t1 t2 : Q,
    returns (calculate_tax (guru index_data) income d1) t1 /\
    returns (calculate_tax (guru index_data) income d2) t2 /\
    t2 <= t1.
Proof.
  intros Hi H1 H2 H.
  destruct (calculate_tax_guru index_data income d1 Hi H1) as (t1 & R1 & E1).
  destruct (calculate_tax_guru index_data income d2 Hi H2) as (t2 & R2 & E2).
  exists t1, t2. split; [exact R1 |]. split; [exact R2 |].
  rewrite E1, E2.
  apply slab_walk_monotone; [apply IND_nonneg |].
  apply py_max_zero_monotone. lra.
Qed.

Lemma calculate_tax_antitone_in_deductions_witness :
  moderate 1500000 /\ moderate 0 /\ moderate 150000 /\ 0 <= 150000 /\
  exists t1 t2 : Q,
    returns (calculate_tax (guru []) 1500000 0) t1 /\
    returns (calculate_tax (guru []) 1500000 150000) t2 /\
    t2 <= t1.
Proof.
  assert (Hi : moderate 1500000) by (unfold moderate; lra).
  assert (H1 : moderate 0) by (unfold moderate; lra).
  assert (H2 : moderate 150000) by (unfold moderate; lra).
  split; [exact Hi |]. split; [exact H1 |]. split; [exact H2 |]. split; [lra |].
  apply (calculate_tax_antitone_in_deductions [] 1500000 0 150000 Hi H1 H2). lra.
Defined.

(** X11.  On an object without a slab table, or whose tables have no
    'IND' entry, [calculate_tax] returns 0 and reports one 'Tax Error'. *)
Theorem calculate_tax_without_table (self : FinancialGuru) (income deductions : Q)
    (s : page) :
  tax_slabs self = None \/
  (exists tables : gmap string TaxTable,
     tax_slabs self = Some tables /\ tables !! "IND"%string = None) ->
  exists e : exn,
    calculate_tax self income deductions s = (Ok 0, s ++ [Diag "Tax Error" e]).
Proof.
  intros [H | (tables & H & Hkey)].
  - exists AttributeError. apply guarded_raise_run.
    unfold tax_body. rewrite H. reflexivity.
  - exists KeyError. apply guarded_raise_run.
    unfold tax_body, getitem. rewrite H. simpl. now rewrite Hkey.
Qed.

Lemma calculate_tax_without_table_witness :
  (exists tables : gmap string TaxTable,
     Some (∅ : gmap string TaxTable) = Some tables /\
     tables !! "IND"%string = None) /\
  exists e : exn,
    calculate_tax {| risk_profile := Some 5%Z; nifty50 := Some [];
                     tax_slabs := Some ∅ |} 600000 0 []
    = (Ok 0, [] ++ [Diag "Tax Error" e]).
Proof.
  split; [exists ∅; split; reflexivity |].
  apply (calculate_tax_without_table
           {| risk_profile := Some 5%Z; nifty50 := Some []; tax_slabs := Some ∅ |}
           600000 0 []).
  right. exists ∅. split; reflexivity.
Defined.

(** ** Saving suggestions, once more *)

Lemma tax_saving_options_run (income : Q) (s : page) :
  tax_saving_options income s
  = (Ok ((if py_gt income 1500000 then [elss_suggestion] else []) ++
         (if py_gt income 700000 then [health_suggestion] else []) ++
         (if py_gt income 500000 then [nps_suggestion] else [])), s).
Proof.
  unfold tax_saving_options, try_except.
  destruct (py_gt income 1500000), (py_gt income 700000),
    (py_gt income 500000); reflexivity.
Qed.

(** X12.  [tax_saving_options] has four possible answers, each a tail of
    the full list: a suggestion never comes without those of the lower
    thresholds, and nothing is written to the page. *)
Theorem tax_saving_options_nested (income : Q) (s : page) :
  exists suggestions : list string,
    tax_saving_options income s = (Ok suggestions, s) /\
    (suggestions = [] \/
     suggestions = [nps_suggestion] \/
     suggestions = [health_suggestion; nps_suggestion] \/
     suggestions = [elss_suggestion; health_suggestion; nps_suggestion]).
Proof.
  eexists. split; [apply tax_saving_options_run |].
  destruct (py_gt_reflect income 1500000), (py_gt_reflect income 700000),
    (py_gt_reflect income 500000); simpl; try tauto; lra.
Qed.

(** X13.  A higher income is never suggested less: every suggestion made
    for an income is made for every larger one. *)
Theorem tax_saving_options_monotone (i1 i2 : Q) :
  i1 <= i2 ->
  exists l1 l2 : list string,
    returns (tax_saving_options i1) l1 /\
    returns (tax_saving_options i2) l2 /\
    incl l1 l2.
Proof.
  intros H. eexists. eexists.
  split; [apply tax_saving_options_returns |].
  split; [apply tax_saving_options_returns |].
  unfold incl.
  destruct (py_gt_reflect i1 1500000), (py_gt_reflect i1 700000),
    (py_gt_reflect i1 500000), (py_gt_reflect i2 1500000),
    (py_gt_reflect i2 700000), (py_gt_reflect i2 500000);
    simpl; intros; try lra; tauto.
Qed.

Lemma tax_saving_options_monotone_witness :
  600000 <= 800000 /\
  exists l1 l2 : list string,
    returns (tax_saving_options 600000) l1 /\
    returns (tax_saving_options 800000) l2 /\
    incl l1 l2.
Proof.
  split; [lra |].
  apply (tax_saving_options_monotone 600000 800000). lra.
Defined.

(** ** Goal plans and the button that asks for them *)

Lemma calculate_swp_regular_run (corpus : Q) (years : Z) (rate : Q) (s : page) :
  (1 <= years <= 100)%Z -> 1 # 100 <= rate <= 100 ->
  float_overflows corpus = false ->
  calculate_swp corpus years rate s = (Ok (swp_value corpus years rate), s).
Proof.
  intros Hy Hr Hc.
  change (calculate_swp corpus years rate)
    with (guarded (swp_formula corpus years rate) "SWP Error" 0).
  apply guarded_ok_run. unfold swp_value.
  now rewrite swp_formula_regular.
Qed.

Lemma calculate_sip_regular_run (target : Q) (years : Z) (rate : Q) (s : page) :
  (1 <= years <= 100)%Z -> 1 # 100 <= rate <= 100 ->
  float_overflows target = false ->
  calculate_sip target years rate s = (Ok (sip_value target years rate), s).
Proof.
  intros Hy Hr Hc.
  change (calculate_sip target years rate)
    with (guarded (sip_formula target years rate) "SIP Error" 0).
  apply guarded_ok_run. unfold sip_value.
  now rewrite sip_formula_regular.
Qed.

(** A moderate sum invested for no time at all: the division by the zero
    annuity factor is the one fault. *)
Lemma sip_formula_zero_years (target : Q) :
  moderate target -> sip_formula target 0 12 = Raise ZeroDivisionError.
Proof.
  intros Ht. unfold sip_formula, py_mul_float.
  change (py_truediv_int 12 1200) with (Ok (12 / 1200) : result Q).
  cbn [mbind result_bind]. rewrite (to_float_moderate target Ht).
  reflexivity.
Qed.

Lemma projection_zero_years (current_cost inflation : Q) :
  moderate current_cost -> moderate inflation ->
  projected_cost current_cost 0 inflation = Ok (current_cost * 1).
Proof.
  intros Hc [Hl Hu]. unfold projected_cost, py_truediv_int.
  change (Qeq_bool 100 0) with false. cbv iota.
  assert (Hr : - (2000000000000000) <= inflation / 100 <= 2000000000000000).
  { split; [apply Qle_shift_div_l | apply Qle_shift_div_r]; lra. }
  rewrite (fits 2000000000000000 _ moderate_fits Hr). cbn [mbind result_bind].
  change (py_pow (py_add_one (inflation / 100)) 0) with (Ok 1 : result Q).
  cbn [mbind result_bind]. rewrite (to_float_moderate current_cost Hc).
  reflexivity.
Qed.

(** X14.  A plan for a goal that is due now (zero years), for a moderate
    cost and inflation, is still made: its future value is the current
    cost, its withdrawal is computed, but its monthly SIP is the 0 of the
    failed division, and the page shows a 'SIP Error'. *)
Theorem goal_plan_zero_years (goal_type : string) (current_cost inflation : Q)
    (s : page) :
  moderate current_cost -> moderate inflation ->
  exists future_value : Q,
    create_goal_plan goal_type current_cost 0 inflation s
    = (Ok {[ "future_value"%string := future_value;
             "monthly_sip"%string := 0;
             "monthly_swp"%string := swp_value future_value 10 8 ]},
       s ++ [Diag "SIP Error" ZeroDivisionError]) /\
    future_value == current_cost.
Proof.
  intros Hc Hi.
  exists (current_cost * 1). split; [| ring].
  rewrite (create_goal_plan_regular_run goal_type current_cost 0 inflation
             (current_cost * 1) s (projection_zero_years _ _ Hc Hi)).
  set (fv := current_cost * 1).
  assert (Hfv : moderate fv) by (destruct Hc; unfold moderate, fv; lra).
  pose proof (sip_formula_zero_years fv Hfv) as Es.
  assert (Ev : sip_value fv 0 12 = 0) by (unfold sip_value; now rewrite Es).
  rewrite Ev.
  change (calculate_sip fv 0 12) with (guarded (sip_formula fv 0 12) "SIP Error" 0).
  rewrite (guarded_raise_run _ _ _ _ s Es). cbn [snd].
  assert (Ew : calculate_swp fv 10 8 (s ++ [Diag "SIP Error" ZeroDivisionError])
               = (Ok (swp_value fv 10 8), s ++ [Diag "SIP Error" ZeroDivisionError])).
  { apply calculate_swp_regular_run; [lia | lra | now apply moderate_amount_fits]. }
  apply (f_equal snd) in Ew. cbn [snd] in Ew.
  exact (f_equal (pair _) Ew).
Qed.

Lemma goal_plan_zero_years_witness :
  moderate 1000000 /\ moderate 6 /\
  exists future_value : Q,
    create_goal_plan "Travel" 1000000 0 6 []
    = (Ok {[ "future_value"%string := future_value;
             "monthly_sip"%string := 0;
             "monthly_swp"%string := swp_value future_value 10 8 ]},
       [] ++ [Diag "SIP Error" ZeroDivisionError]) /\
    future_value == 1000000.
Proof.
  assert (Hc : moderate 1000000) by (unfold moderate; lra).
  assert (Hi : moderate 6) by (unfold moderate; lra).
  split; [exact Hc |]. split; [exact Hi |].
  apply (goal_plan_zero_years "Travel" 1000000 6 [] Hc Hi).
Defined.

Lemma plan_entries (a b c : Q) :
  let plan : gmap string Q :=
    {[ "future_value"%string := a; "monthly_sip"%string := b;
       "monthly_swp"%string := c ]} in
  getitem plan "future_value" = Ok a /\
  getitem plan "monthly_sip" = Ok b /\
  getitem plan "monthly_swp" = Ok c.
Proof. repeat split. Qed.

(** A plan that was made is displayed. *)
Lemma main_generate_plan_regular (goal_type : string) (current_cost : Q)
    (years : Z) (inflation future_value : Q) :
  projected_cost current_cost years inflation = Ok future_value ->
  returns (main_generate_plan goal_type current_cost years inflation)
          (future_value, sip_value future_value years 12,
           swp_value future_value 10 8).
Proof.
  intros E s. unfold main_generate_plan.
  rewrite (bind_run _ _ _ _ _
             (create_goal_plan_regular_run goal_type current_cost years inflation
                future_value s E)).
  generalize (sip_value future_value years 12) (swp_value future_value 10 8).
  intros sip swp.
  destruct (plan_entries future_value sip swp) as (E1 & E2 & E3).
  cbv zeta in E1, E2, E3.
  rewrite E1, bind_lift_ok, E2, bind_lift_ok, E3, bind_lift_ok. reflexivity.
Qed.

(** A plan that was not made is looked up all the same. *)
Lemma main_generate_plan_fault (goal_type : string) (current_cost : Q)
    (years : Z) (inflation : Q) (e : exn) (s : page) :
  projected_cost current_cost years inflation = Raise e ->
  fst (main_generate_plan goal_type current_cost years inflation s) = Raise KeyError.
Proof.
  intros E. unfold main_generate_plan.
  rewrite (bind_run _ _ _ _ _
             (create_goal_plan_fault_run goal_type current_cost years inflation
                e s E)).
  reflexivity.
Qed.

(** X15.  The exception [create_goal_plan] swallowed comes back in its
    caller: the "Generate Plan" button raises [KeyError] exactly when the
    projection of the cost raised, whatever it raised, because it reads
    [plan['future_value']] from the empty dict. *)
Theorem main_generate_plan_key_error (goal_type : string) (current_cost : Q)
    (years : Z) (inflation : Q) (s : page) :
  fst (main_generate_plan goal_type current_cost years inflation s) = Raise KeyError
  <-> exists e : exn, projected_cost current_cost years inflation = Raise e.
Proof.
  destruct (projected_cost current_cost years inflation) as [fv | e] eqn:E; split.
  - intros H. rewrite (main_generate_plan_regular goal_type _ _ _ fv E s) in H.
    discriminate H.
  - intros [e H]. discriminate H.
  - intros _. now exists e.
  - intros _. exact (main_generate_plan_fault goal_type _ _ _ e s E).
Qed.

(** Both kinds of fault end in the [KeyError]: zero to a negative power,
    and a projection beyond the range of binary64. *)
Example main_generate_plan_key_errors (s : page) :
  fst (main_generate_plan "Home" 1000000 (-1) (-100) s) = Raise KeyError /\
  fst (main_generate_plan "Home" 1000000 40 10000000000 s) = Raise KeyError.
Proof.
  split.
  - apply (main_generate_plan_fault "Home" 1000000 (-1) (-100) ZeroDivisionError s).
    vm_compute. reflexivity.
  - apply (main_generate_plan_fault "Home" 1000000 40 10000000000 OverflowError s).
    vm_compute. reflexivity.
Qed.

Lemma sip_value_positive (target : Q) (years : Z) (rate : Q) :
  0 < target -> float_overflows target = false ->
  (1 <= years <= 100)%Z -> 1 # 100 <= rate <= 100 ->
  0 < sip_value target years rate.
Proof.
  intros Ht Hfit Hy Hr.
  destruct (regular_growth years rate Hy Hr) as (Hi & Hg & _).
  unfold sip_value. rewrite sip_formula_regular by assumption.
  apply Qlt_shift_div_l; [lra |].
  assert (0 < target * (rate / 1200)) by (apply Qmult_lt_0_compat; lra). lra.
Qed.

Lemma swp_value_positive (corpus : Q) (years : Z) (rate : Q) :
  0 < corpus -> float_overflows corpus = false ->
  (1 <= years <= 100)%Z -> 1 # 100 <= rate <= 100 ->
  0 < swp_value corpus years rate.
Proof.
  intros Hc Hfit Hy Hr.
  destruct (regular_growth years rate Hy Hr) as (Hi & Hg & _).
  unfold swp_value. rewrite swp_formula_regular by assumption.
  assert (Hinv : / (1 + rate / 1200) ^ (years * 12) < 1).
  { apply Qinv_lt_contravar in Hg; [exact Hg | lra | lra]. }
  rewrite Qpower_opp. apply Qlt_shift_div_l; [lra |].
  assert (0 < corpus * (rate / 1200)) by (apply Qmult_lt_0_compat; lra). lra.
Qed.

Lemma projected_fits : 1000000000000000 * 2 ^ 100 < float_limit.
Proof. vm_compute. reflexivity. Qed.

(** X16.  With what the sliders of the goal planner allow (1 to 30 years,
    an inflation from 3 to 15) and a cost of ordinary size, the button
    displays three positive amounts, and a future value above the current
    cost. *)
Theorem main_generate_plan_displays (goal_type : string) (current_cost : Q)
    (years : Z) (inflation : Q) :
  ordinary_amount current_cost -> (1 <= years <= 30)%Z -> 3 <= inflation <= 15 ->
  exists future_value monthly_sip monthly_swp : Q,
    returns (main_generate_plan goal_type current_cost years inflation)
            (future_value, monthly_sip, monthly_swp) /\
    current_cost < future_value /\ 0 < monthly_sip /\ 0 < monthly_swp.
Proof.
  intros [Hc Hc'] Hy Hi.
  assert (Hm : moderate current_cost) by (unfold moderate; lra).
  destruct (projection_regular current_cost years inflation Hm) as [[Hg0 Hcap] E];
    [lia | lra |].
  cbv zeta in E, Hg0, Hcap.
  assert (Hsum : py_add_one (inflation / 100) = 1 + inflation / 100).
  { apply py_add_one_regular. apply Qle_shift_div_l; lra. }
  rewrite Hsum in E, Hg0, Hcap.
  eexists. eexists. eexists.
  split; [apply main_generate_plan_regular; exact E |].
  assert (Hg : 1 < (1 + inflation / 100) ^ years).
  { apply Qpower_1_lt; [| lia].
    assert (0 < inflation / 100) by (apply Qlt_shift_div_l; lra). lra. }
  set (growth := (1 + inflation / 100) ^ years) in *.
  assert (Hfv : current_cost < current_cost * growth).
  { assert (Eq : current_cost == current_cost * 1) by ring.
    rewrite Eq at 1. apply Qmult_lt_l; lra. }
  assert (Hfit : float_overflows (current_cost * growth) = false).
  { pose proof projected_fits as Hp. revert Hp Hcap.
    generalize (2 ^ 100). intros cap Hp Hcap.
    apply (fits (1000000000000000 * cap) _ Hp).
    assert (current_cost * growth <= 1000000000000000 * cap).
    { apply Qle_trans with (1000000000000000 * growth).
      - apply Qmult_le_compat_r; lra.
      - apply Qmult_le_l; lra. }
    assert (0 <= 1000000000000000 * cap) by (apply Qmult_le_0_compat; lra).
    lra. }
  split; [exact Hfv |]. split.
  - apply sip_value_positive; [lra | exact Hfit | lia | lra].
  - apply swp_value_positive; [lra | exact Hfit | lia | lra].
Qed.

Lemma main_generate_plan_displays_witness :
  ordinary_amount 1000000 /\ (1 <= 10 <= 30)%Z /\ 3 <= 6 <= 15 /\
  exists future_value monthly_sip monthly_swp : Q,
    returns (main_generate_plan "Home" 1000000 10 6)
            (future_value, monthly_sip, monthly_swp) /\
    1000000 < future_value /\ 0 < monthly_sip /\ 0 < monthly_swp.
Proof.
  assert (Hc : ordinary_amount 1000000) by (unfold ordinary_amount; lra).
  split; [exact Hc |]. split; [lia |]. split; [lra |].
  apply (main_generate_plan_displays "Home" 1000000 10 6 Hc); [lia | lra].
Defined.

(** ** [__init__] *)

Lemma risk_profile_of_body (self : FinancialGuru) (e : exn) :
  risk_profile_body self = Raise e -> returns (_calculate_risk_profile self) 5%Z.
Proof.
  intros H. pose proof (risk_profile_returns self) as R. now rewrite H in R.
Qed.

(** [__init__], fetcher by fetcher. *)
Lemma init_run (get_index_data : M PriceSeries)
    (get_gold_price get_crypto_price : M npfloat) (index_data : PriceSeries)
    (gold_price btc_price : npfloat) (s s1 s2 s3 : page) :
  get_index_data s = (Ok index_data, s1) ->
  get_gold_price s1 = (Ok gold_price, s2) ->
  get_crypto_price s2 = (Ok btc_price, s3) ->
  __init__ get_index_data get_gold_price get_crypto_price s
  = (Ok (guru index_data), s3).
Proof.
  intros E1 E2 E3. unfold __init__.
  change (_calculate_risk_profile
            {| risk_profile := None; nifty50 := None; tax_slabs := None |})
    with (mret 5%Z : M Z).
  unfold mbind, M_bind, mret, M_ret. cbn beta iota.
  rewrite E1, E2, E3. reflexivity.
Qed.

(** X17.  Whatever the three fetchers deliver and write to the page, the
    object [__init__] builds has the risk profile 5: the profile is
    computed before [self.nifty50] is assigned, and the [AttributeError]
    is swallowed without a report.  The object holds the index data that
    was fetched and the default slab table, and the page holds what the
    fetchers wrote, the index first, then gold, then bitcoin. *)
Theorem init_risk_profile_is_5 (get_index_data : M PriceSeries)
    (get_gold_price get_crypto_price : M npfloat) (s : page) :
  never_raises get_index_data -> never_raises get_gold_price ->
  never_raises get_crypto_price ->
  exists (self : FinancialGuru) (index_data : PriceSeries),
    fst (get_index_data s) = Ok index_data /\
    __init__ get_index_data get_gold_price get_crypto_price s
    = (Ok self,
       snd (get_crypto_price (snd (get_gold_price (snd (get_index_data s)))))) /\
    risk_profile self = Some 5%Z /\
    nifty50 self = Some index_data /\
    tax_slabs self = Some default_tax_slabs.
Proof.
  intros H1 H2 H3.
  destruct (H1 s) as (index_data & s1 & E1).
  destruct (H2 s1) as (gold_price & s2 & E2).
  destruct (H3 s2) as (btc_price & s3 & E3).
  exists (guru index_data), index_data.
  split; [now rewrite E1 |].
  split; [| repeat split].
  rewrite (init_run _ _ _ _ _ _ _ _ _ _ E1 E2 E3).
  rewrite E1. cbn [snd]. rewrite E2. cbn [snd]. rewrite E3. reflexivity.
Qed.

Lemma init_risk_profile_is_5_witness :
  never_raises (mret [100; 100; 100] : M PriceSeries) /\
  never_raises (fun s : page => (Ok NaN, s ++ [Diag "Gold Price Error" ValueError])) /\
  never_raises (mret (Fin 5000000) : M npfloat) /\
  exists (self : FinancialGuru) (index_data : PriceSeries),
    fst ((mret [100; 100; 100] : M PriceSeries) []) = Ok index_data /\
    __init__ (mret [100; 100; 100])
             (fun s : page => (Ok NaN, s ++ [Diag "Gold Price Error" ValueError]))
             (mret (Fin 5000000)) []
    = (Ok self,
       snd ((mret (Fin 5000000) : M npfloat)
              (snd ((fun s : page =>
                       (Ok NaN, s ++ [Diag "Gold Price Error" ValueError]))
                      (snd ((mret [100; 100; 100] : M PriceSeries) [])))))) /\
    risk_profile self = Some 5%Z /\
    nifty50 self = Some index_data /\
    tax_slabs self = Some default_tax_slabs.
Proof.
  assert (H1 : never_raises (mret [100; 100; 100] : M PriceSeries)).
  { intros s. eexists. eexists. reflexivity. }
  assert (H2 : never_raises
                 (fun s : page => (Ok NaN, s ++ [Diag "Gold Price Error" ValueError]))).
  { intros s. eexists. eexists. reflexivity. }
  assert (H3 : never_raises (mret (Fin 5000000) : M npfloat)).
  { intros s. eexists. eexists. reflexivity. }
  split; [exact H1 |]. split; [exact H2 |]. split; [exact H3 |].
  apply (init_risk_profile_is_5 _ _ _ [] H1 H2 H3).
Defined.

(** The profile of the data the object was built from need not be 5. *)
Example init_risk_profile_ignores_data :
  returns (_calculate_risk_profile (guru [100; 100; 100])) 10%Z.
Proof. exact (risk_profile_returns (guru [100; 100; 100])). Qed.

(** ** The risk profile, once more *)

(** X18.  A series of fewer than three samples scores 5: it has at most
    one change, and the standard deviation of one value is NaN. *)
Theorem risk_profile_short_series (prices : PriceSeries) :
  (List.length prices < 3)%nat ->
  returns (_calculate_risk_profile (holding prices)) 5%Z.
Proof.
  intros H. destruct prices as [| p [| q [| r rest]]]; simpl in H; try lia.
  - exact (risk_profile_returns (holding [])).
  - exact (risk_profile_returns (holding [p])).
  - apply risk_profile_two_samples.
Qed.

Lemma risk_profile_short_series_witness :
  (List.length [22000%Q; 22010%Q] < 3)%nat /\
  returns (_calculate_risk_profile (holding [22000; 22010])) 5%Z.
Proof.
  split; [simpl; lia |].
  apply (risk_profile_short_series [22000; 22010]). simpl. lia.
Defined.

Lemma all_finite_inf (xs : list npfloat) (b : bool) :
  In (Inf b) xs -> all_finite xs = None.
Proof.
  induction xs as [| x xs IH]; intros H; [destruct H |].
  destruct H as [-> | H]; [reflexivity |].
  destruct x as [q | |]; simpl; [| reflexivity | reflexivity].
  now rewrite (IH H).
Qed.

Lemma nanvar_inf (xs : list npfloat) (b : bool) : In (Inf b) xs -> nanvar xs = None.
Proof.
  intros H. unfold nanvar.
  destruct (List.length (dropna xs) <=? 1)%nat; [reflexivity |].
  rewrite (all_finite_inf (dropna xs) b); [reflexivity |].
  unfold dropna. apply filter_In. split; [exact H | reflexivity].
Qed.

Lemma np_div_by_zero (p z : Q) :
  z == 0 -> ~ p == 0 -> exists b : bool, np_sub (np_div p z) 1 = Inf b.
Proof.
  intros Hz Hp. unfold np_div.
  destruct (Qeq_bool_reflect z 0); [| contradiction].
  destruct (Qeq_bool_reflect p 0); [contradiction |].
  eexists. reflexivity.
Qed.

Lemma pct_change_from_inf (before after : list Q) (previous z p : Q) :
  z == 0 -> ~ p == 0 ->
  exists b : bool,
    In (Inf b) (pct_change_from previous (before ++ z :: p :: after)).
Proof.
  intros Hz Hp. revert previous.
  induction before as [| x before IH]; intros previous.
  - destruct (np_div_by_zero p z Hz Hp) as [b E].
    exists b. simpl. right. left. exact E.
  - destruct (IH x) as [b Hb]. exists b. simpl. right. exact Hb.
Qed.

Lemma risk_profile_body_nan (prices : PriceSeries) :
  prices <> [] -> nanvar (pct_change prices) = None ->
  risk_profile_body (holding prices) = Raise ValueError.
Proof.
  intros Hne H. destruct prices as [| p rest]; [contradiction |].
  unfold risk_profile_body, holding. cbn [nifty50 getattr].
  unfold mbind at 1, result_bind. cbn [empty negb].
  unfold annual_volatility, std. rewrite H. reflexivity.
Qed.

(** X19.  A zero price followed by a non-zero one makes a change
    infinite, the deviation NaN, and the score 5. *)
Theorem risk_profile_after_zero_price (before after : list Q) (z p : Q) :
  z == 0 -> ~ p == 0 ->
  returns (_calculate_risk_profile (holding (before ++ z :: p :: after))) 5%Z.
Proof.
  intros Hz Hp. apply (risk_profile_of_body _ ValueError).
  assert (Hinf : exists b, In (Inf b) (pct_change (before ++ z :: p :: after))).
  { destruct before as [| x before].
    - destruct (np_div_by_zero p z Hz Hp) as [b E].
      exists b. simpl. right. left. exact E.
    - destruct (pct_change_from_inf before after x z p Hz Hp) as [b Hb].
      exists b. simpl. right. exact Hb. }
  destruct Hinf as [b Hb].
  apply risk_profile_body_nan; [now destruct before | exact (nanvar_inf _ b Hb)].
Qed.

Lemma risk_profile_after_zero_price_witness :
  0 == 0 /\ ~ 22000 == 0 /\
  returns (_calculate_risk_profile (holding ([21900; 21950] ++ 0 :: 22000 :: [22010]))) 5%Z.
Proof.
  split; [reflexivity |]. split; [discriminate |].
  apply (risk_profile_after_zero_price [21900; 21950] [22010] 0 22000);
    [reflexivity | discriminate].
Defined.

(** *** A series that does not move *)

Lemma pct_change_from_repeat (p : Q) (m : nat) :
  ~ p == 0 -> pct_change_from p (repeat p m) = repeat (Fin (p / p - 1)) m.
Proof.
  intros Hp. induction m as [| m IH]; [reflexivity |].
  simpl. rewrite IH. unfold np_div.
  destruct (Qeq_bool_reflect p 0); [contradiction | reflexivity].
Qed.

Lemma dropna_repeat_fin (c : Q) (m : nat) :
  dropna (repeat (Fin c) m) = repeat (Fin c) m.
Proof. induction m as [| m IH]; [reflexivity |]. simpl. now rewrite IH. Qed.

Lemma all_finite_repeat (c : Q) (m : nat) :
  all_finite (repeat (Fin c) m) = Some (repeat c m).
Proof. induction m as [| m IH]; [reflexivity |]. simpl. now rewrite IH. Qed.

Lemma Qsum_repeat (c : Q) (m : nat) :
  Qsum (repeat c m) == inject_Z (Z.of_nat m) * c.
Proof.
  induction m as [| m IH].
  - simpl. change (inject_Z 0) with 0. ring.
  - rewrite Nat2Z.inj_succ. unfold Z.succ. rewrite inject_Z_plus.
    change (inject_Z 1) with 1. simpl. rewrite IH. ring.
Qed.

Lemma Qsum_all_zero (qs : list Q) : Forall (fun q => q == 0) qs -> Qsum qs == 0.
Proof.
  induction 1 as [| q qs Hq _ IH]; simpl; [reflexivity |].
  rewrite Hq, IH. ring.
Qed.

Lemma flat_variance (p : Q) (m : nat) :
  ~ p == 0 -> (2 <= m)%nat ->
  exists v : Q, nanvar (pct_change (p :: repeat p m)) = Some v /\ v == 0.
Proof.
  intros Hp Hm. unfold pct_change. rewrite pct_change_from_repeat by exact Hp.
  set (c := p / p - 1). unfold nanvar.
  change (dropna (NaN :: repeat (Fin c) m)) with (dropna (repeat (Fin c) m)).
  rewrite dropna_repeat_fin, repeat_length, all_finite_repeat.
  destruct (Nat.leb_spec m 1) as [| _]; [lia |].
  eexists. split; [reflexivity |].
  assert (Hn : 0 < inject_Z (Z.of_nat m)).
  { change 0 with (inject_Z 0). rewrite <- Zlt_Qlt. lia. }
  assert (Havg : Qsum (repeat c m) / inject_Z (Z.of_nat m) == c).
  { rewrite Qsum_repeat. field. lra. }
  rewrite Qsum_all_zero; [reflexivity |].
  set (avg := Qsum (repeat c m) / inject_Z (Z.of_nat m)) in *.
  clearbody avg. clear -Havg. induction m as [| k IH]; simpl.
  - constructor.
  - constructor; [rewrite Havg; ring | apply IH].
Qed.

(** X20.  A series of at least three samples that does not move has no
    volatility and gets the top score 10. *)
Theorem risk_profile_flat_series (p : Q) (n : nat) :
  ~ p == 0 -> (3 <= n)%nat ->
  returns (_calculate_risk_profile (holding (repeat p n))) 10%Z.
Proof.
  intros Hp Hn. destruct n as [| m]; [lia |].
  destruct (flat_variance p m Hp) as (v & Hv & Hzero); [lia |].
  change (repeat p (S m)) with (p :: repeat p m) in *.
  assert (Hvol : annual_volatility (p :: repeat p m) = Sqrt (v * 252)).
  { unfold annual_volatility, std. now rewrite Hv. }
  assert (Hx : v * 252 * (100 * 100) == 0) by (rewrite Hzero; ring).
  pose proof (risk_profile_returns (holding (p :: repeat p m))) as R.
  rewrite (risk_profile_body_scored (holding (p :: repeat p m))
             (p :: repeat p m) (v * 252) eq_refl) in R by (discriminate || exact Hvol).
  cbv zeta in R.
  destruct (Qle_bool_reflect (v * 252 * (100 * 100)) 100) as [_ | Hgt]; [| lra].
  unfold ceil_sqrt in R. rewrite (Qceiling_comp _ _ Hx) in R. exact R.
Qed.

Lemma risk_profile_flat_series_witness :
  ~ 22000 == 0 /\ (3 <= 4)%nat /\
  returns (_calculate_risk_profile (holding (repeat 22000 4))) 10%Z.
Proof.
  split; [discriminate |]. split; [lia |].
  apply (risk_profile_flat_series 22000 4); [discriminate | lia].
Defined.

(** *** The unit of the prices *)

Lemma np_div_scale (k p q : Q) :
  0 < k -> same_cell (np_div (k * p) (k * q)) (np_div p q).
Proof.
  intros Hk. unfold np_div.
  destruct (Qeq_bool_reflect (k * q) 0) as [Hq | Hq];
    destruct (Qeq_bool_reflect q 0) as [Hq' | Hq'].
  - destruct (Qeq_bool_reflect (k * p) 0) as [Hp | Hp];
      destruct (Qeq_bool_reflect p 0) as [Hp' | Hp'].
    + constructor.
    + exfalso. apply Hp'. apply (Qmult_integral k p) in Hp. destruct Hp; [lra | assumption].
    + exfalso. apply Hp. rewrite Hp'. ring.
    + assert (E : Qle_bool 0 (k * p) = Qle_bool 0 p).
      { destruct (Qle_bool_reflect 0 (k * p)) as [H1 | H1];
          destruct (Qle_bool_reflect 0 p) as [H2 | H2]; try reflexivity.
        - exfalso. apply H2.
          assert (E : p == k * p / k) by (field; lra).
          rewrite E. apply Qle_shift_div_l; lra.
        - exfalso. apply H1. apply Qmult_le_0_compat; lra. }
      rewrite E. constructor.
  - exfalso. apply Hq'. apply (Qmult_integral k q) in Hq. destruct Hq; [lra | assumption].
  - exfalso. apply Hq. rewrite Hq'. ring.
  - constructor. field. split; [exact Hq' | lra].
Qed.

Lemma np_sub_same (x y : npfloat) (c : Q) :
  same_cell x y -> same_cell (np_sub x c) (np_sub y c).
Proof.
  intros [a b H | s |]; simpl; constructor. rewrite H. reflexivity.
Qed.

Lemma pct_change_from_scale (k : Q) (prices : list Q) :
  0 < k ->
  forall previous : Q,
    Forall2 same_cell
      (pct_change_from (k * previous) (List.map (Qmult k) prices))
      (pct_change_from previous prices).
Proof.
  intros Hk. induction prices as [| p rest IH]; intros previous; simpl.
  - constructor.
  - constructor; [| apply IH].
    apply np_sub_same. now apply np_div_scale.
Qed.

Lemma pct_change_scale (k : Q) (prices : PriceSeries) :
  0 < k ->
  Forall2 same_cell (pct_change (List.map (Qmult k) prices)) (pct_change prices).
Proof.
  intros Hk. destruct prices as [| p rest]; simpl.
  - constructor.
  - constructor; [constructor |]. now apply pct_change_from_scale.
Qed.

Lemma dropna_same (xs ys : list npfloat) :
  Forall2 same_cell xs ys -> Forall2 same_cell (dropna xs) (dropna ys).
Proof.
  induction 1 as [| x y xs ys Hxy _ IH]; simpl; [constructor |].
  destruct Hxy; simpl; try (constructor; [constructor |]); assumption.
Qed.

Lemma all_finite_same (xs ys : list npfloat) :
  Forall2 same_cell xs ys ->
  match all_finite xs, all_finite ys with
  | Some a, Some b => Forall2 Qeq a b
  | None, None => True
  | _, _ => False
  end.
Proof.
  induction 1 as [| x y xs ys Hxy _ IH]; simpl; [constructor |].
  destruct Hxy as [a b Hab | s |]; try exact I.
  destruct (all_finite xs), (all_finite ys); simpl; try assumption.
  now constructor.
Qed.

Lemma Qsum_same (a b : list Q) : Forall2 Qeq a b -> Qsum a == Qsum b.
Proof.
  induction 1 as [| x y a b Hxy _ IH]; simpl; [reflexivity |].
  rewrite Hxy, IH. reflexivity.
Qed.

Lemma squares_same (m m' : Q) (a b : list Q) :
  m == m' -> Forall2 Qeq a b ->
  Forall2 Qeq (List.map (fun x => (m - x) * (m - x)) a)
              (List.map (fun x => (m' - x) * (m' - x)) b).
Proof.
  intros Hm. induction 1 as [| x y a b Hxy _ IH]; simpl; constructor.
  - rewrite Hm, Hxy. reflexivity.
  - exact IH.
Qed.

Lemma nanvar_same (xs ys : list npfloat) :
  Forall2 same_cell xs ys -> same_variance (nanvar xs) (nanvar ys).
Proof.
  intros H. apply dropna_same in H. unfold nanvar.
  rewrite (Forall2_length _ _ _ H).
  destruct (List.length (dropna ys) <=? 1)%nat eqn:Hc; [exact I |].
  apply Nat.leb_gt in Hc.
  pose proof (all_finite_same _ _ H) as Hf.
  destruct (all_finite (dropna xs)) as [a |], (all_finite (dropna ys)) as [b |];
    simpl; try exact Hf.
  assert (Hn : 0 < inject_Z (Z.of_nat (List.length (dropna ys)))).
  { change 0 with (inject_Z 0). rewrite <- Zlt_Qlt. lia. }
  assert (Hd : 0 < inject_Z (Z.of_nat (List.length (dropna ys)) - 1)).
  { change 0 with (inject_Z 0). rewrite <- Zlt_Qlt. lia. }
  assert (Havg : Qsum a / inject_Z (Z.of_nat (List.length (dropna ys)))
                 == Qsum b / inject_Z (Z.of_nat (List.length (dropna ys)))).
  { rewrite (Qsum_same _ _ Hf). reflexivity. }
  rewrite (Qsum_same _ _ (squares_same _ _ _ _ Havg Hf)). reflexivity.
Qed.

Lemma int_sub_root_same (c : Z) (x y : Q) :
  x == y -> int_sub_root c (Sqrt x) = int_sub_root c (Sqrt y).
Proof.
  intros H. unfold int_sub_root, ceil_sqrt, floor_sqrt.
  rewrite (Qceiling_comp _ _ H), (Qfloor_comp _ _ H).
  assert (E : Qle_bool x (inject_Z (c * c)) = Qle_bool y (inject_Z (c * c))).
  { destruct (Qle_bool_reflect x (inject_Z (c * c)));
      destruct (Qle_bool_reflect y (inject_Z (c * c))); try reflexivity; lra. }
  now rewrite E.
Qed.

Lemma risk_profile_body_scale (k : Q) (prices : PriceSeries) :
  0 < k ->
  risk_profile_body (holding (List.map (Qmult k) prices))
  = risk_profile_body (holding prices).
Proof.
  intros Hk. destruct prices as [| p rest]; [reflexivity |].
  unfold risk_profile_body, holding. cbn [nifty50 getattr List.map].
  unfold mbind at 1 3, result_bind. cbn [empty negb].
  pose proof (nanvar_same _ _ (pct_change_scale k (p :: rest) Hk)) as Hv.
  cbn [List.map] in Hv. unfold annual_volatility, std.
  destruct (nanvar (pct_change (k * p :: List.map (Qmult k) rest))) as [v |],
    (nanvar (pct_change (p :: rest))) as [v' |]; simpl in Hv; try contradiction.
  - cbn [root_mul np_sqrt root_scale].
    rewrite (int_sub_root_same 10 (v * 252 * (100 * 100)) (v' * 252 * (100 * 100)));
      [reflexivity | now rewrite Hv].
  - reflexivity.
Qed.

(** X21.  The score does not depend on the unit of the prices:
    multiplying every price by the same positive number leaves it as it
    is. *)
Theorem risk_profile_scale_invariant (k : Q) (prices : PriceSeries) :
  0 < k ->
  exists score : Z,
    returns (_calculate_risk_profile (holding prices)) score /\
    returns (_calculate_risk_profile (holding (List.map (Qmult k) prices))) score.
Proof.
  intros Hk. eexists. split; [apply risk_profile_returns |].
  rewrite <- (risk_profile_body_scale k prices Hk).
  apply risk_profile_returns.
Qed.

Lemma risk_profile_scale_invariant_witness :
  0 < 100 /\
  exists score : Z,
    returns (_calculate_risk_profile (holding [220; 221; 219])) score /\
    returns (_calculate_risk_profile
               (holding (List.map (Qmult 100) [220; 221; 219]))) score.
Proof.
  split; [lra |].
  apply (risk_profile_scale_invariant 100 [220; 221; 219]). lra.
Defined.

(** ** The index data *)

Lemma ffill_from_keeps (cells : list npfloat) :
  forall last : npfloat, Forall2 keeps_value cells (ffill_from last cells).
Proof.
  induction cells as [| x rest IH]; intros last; simpl; constructor.
  - intros H. now rewrite H.
  - apply IH.
Qed.

Lemma bfill_cells_keeps (cells : list npfloat) :
  Forall2 keeps_value cells (bfill_cells cells).
Proof.
  induction cells as [| x rest IH]; simpl; constructor.
  - intros H. now rewrite H.
  - exact IH.
Qed.

Lemma ffill_from_valid (cells : list npfloat) :
  forall last : npfloat, is_nan last = false -> no_nan (ffill_from last cells).
Proof.
  induction cells as [| x rest IH]; intros last H; simpl; constructor.
  - destruct (is_nan x) eqn:E; assumption.
  - apply IH. destruct (is_nan x) eqn:E; assumption.
Qed.

Lemma bfill_cells_valid (cells : list npfloat) :
  no_nan cells -> bfill_cells cells = cells.
Proof.
  induction 1 as [| x rest Hx _ IH]; simpl; [reflexivity |].
  now rewrite Hx, IH.
Qed.

(** After [ffill] the NaN cells are at the top; [bfill] then fills them
    from the first valid cell, if there is one. *)
Lemma fill_no_nan (cells : list npfloat) :
  Exists (fun x => is_nan x = false) cells ->
  no_nan (bfill_cells (ffill_cells cells)) /\ bfill_cells (ffill_cells cells) <> [].
Proof.
  unfold ffill_cells. induction cells as [| x rest IH]; intros H.
  - inversion H.
  - simpl. destruct (is_nan x) eqn:E.
    + assert (Hrest : Exists (fun x => is_nan x = false) rest).
      { inversion H as [? ? Hx | ? ? Hr]; subst; [congruence | exact Hr]. }
      destruct (IH Hrest) as [Hvalid Hne]. split; [| discriminate].
      simpl. constructor; [| exact Hvalid].
      destruct (bfill_cells (ffill_from NaN rest)) as [| y below];
        [contradiction |].
      simpl. now inversion Hvalid.
    + split; [| discriminate].
      pose proof (ffill_from_valid rest x E) as Hvalid.
      rewrite (bfill_cells_valid _ Hvalid), E. constructor; assumption.
Qed.

Lemma keeps_value_chain (xs ys zs : list npfloat) :
  Forall2 keeps_value xs ys -> Forall2 keeps_value ys zs ->
  Forall2 keeps_value xs zs.
Proof.
  intros H. revert zs. induction H as [| x y xs ys Hxy _ IH]; intros zs Hz.
  - inversion Hz. constructor.
  - inversion Hz as [| ? z ? zs' Hyz Hrest]; subst. constructor; [| now apply IH].
    intros Hx. rewrite <- (Hxy Hx). apply Hyz. now rewrite (Hxy Hx).
Qed.

Lemma select_columns_cases (data : DataFrame) (name : string) :
  (List.filter (fun column => String.eqb (fst column) name) data = [] /\
   select_columns data name = Raise KeyError) \/
  (List.filter (fun column => String.eqb (fst column) name) data <> [] /\
   select_columns data name
   = Ok (List.filter (fun column => String.eqb (fst column) name) data)).
Proof.
  unfold select_columns.
  destruct (List.filter _ data) as [| column rest].
  - left. split; reflexivity.
  - right. split; [discriminate | reflexivity].
Qed.

Lemma fills_columns (close : DataFrame) :
  Forall2 filled_from close (bfill (ffill close)).
Proof.
  unfold bfill, ffill. induction close as [| [label cells] rest IH]; simpl.
  - constructor.
  - constructor; [| exact IH].
    split; [reflexivity |]. split; simpl.
    + apply keeps_value_chain with (ys := ffill_cells cells).
      * apply ffill_from_keeps.
      * apply bfill_cells_keeps.
    + intros H. now apply fill_no_nan.
Qed.

(** X22.  [_get_index_data] never raises.  When the download fails, or
    a frame with rows has no [Close] column, it reports one 'Market Data
    Error' and returns the empty frame.  For an empty download it returns
    the empty frame and reports nothing.  Otherwise it reports nothing and
    returns the columns labelled [Close], in their order and all of them
    should the label occur more than once, each of the same length, with
    every value it held still in place and with no NaN left unless the
    whole column was NaN. *)
Theorem get_index_data_filled (download : string -> result DataFrame)
    (ticker : string) (s : page) :
  (exists e : exn,
     (download ticker = Raise e \/
      exists data : DataFrame,
        download ticker = Ok data /\ frame_empty data = false /\
        List.filter (fun column => String.eqb (fst column) "Close") data = [] /\
        e = KeyError) /\
     _get_index_data download ticker s = (Ok [], s ++ [Diag "Market Data Error" e])) \/
  (exists data : DataFrame,
     download ticker = Ok data /\ frame_empty data = true /\
     _get_index_data download ticker s = (Ok [], s)) \/
  (exists data close frame : DataFrame,
     download ticker = Ok data /\ frame_empty data = false /\
     close = List.filter (fun column => String.eqb (fst column) "Close") data /\
     close <> [] /\
     _get_index_data download ticker s = (Ok frame, s) /\
     Forall2 filled_from close frame).
Proof.
  unfold _get_index_data, try_except.
  destruct (download ticker) as [data | e] eqn:Hd.
  - rewrite bind_lift_ok. destruct (frame_empty data) eqn:He; simpl negb; cbv iota.
    + right. left. exists data.
      split; [reflexivity |]. split; [exact He | reflexivity].
    + destruct (select_columns_cases data "Close") as [[Hnone Hc] | [Hsome Hc]];
        rewrite Hc.
      * left. exists KeyError. split; [| reflexivity].
        right. exists data. repeat split; [exact He | exact Hnone].
      * right. right.
        exists data, (List.filter (fun column => String.eqb (fst column) "Close") data),
          (bfill (ffill (List.filter
                           (fun column => String.eqb (fst column) "Close") data))).
        split; [reflexivity |]. split; [exact He |]. split; [reflexivity |].
        split; [exact Hsome |]. split; [reflexivity |].
        apply fills_columns.
  - left. exists e. split; [now left | reflexivity].
Qed.

(** A download with a gap at the top and one in the middle, and one whose
    label occurs twice. *)
Example get_index_data_fills_gaps (s : page) :
  _get_index_data
    (fun _ => Ok [("Open"%string, [Fin 1; Fin 2; Fin 3; Fin 4]);
                  ("Close"%string, [NaN; Fin 22000; NaN; Fin 22010])])
    "^NSEI" s
  = (Ok [("Close"%string, [Fin 22000; Fin 22000; Fin 22000; Fin 22010])], s) /\
  _get_index_data
    (fun _ => Ok [("Close"%string, [Fin 1; NaN]); ("Close"%string, [NaN; Fin 2])])
    "^NSEI" s
  = (Ok [("Close"%string, [Fin 1; Fin 1]); ("Close"%string, [Fin 2; Fin 2])], s).
Proof. split; reflexivity. Qed.

(** ** The crypto price *)

Lemma getitem_ok {A : Type} (d : gmap string A) (key : string) (a : A) :
  getitem d key = Ok a -> d !! key = Some a.
Proof. unfold getitem. destruct (d !! key); [now intros [= ->] | discriminate]. Qed.

Lemma getitem_raise {A : Type} (d : gmap string A) (key : string) (e : exn) :
  getitem d key = Raise e -> d !! key = None.
Proof. unfold getitem. destruct (d !! key); [discriminate | reflexivity]. Qed.

(** X23.  [_get_crypto_price] never raises: it returns the quote when
    the answer to its request holds the coin and, under it, an 'inr'
    entry, and reports nothing; in every other case (no answer, no such
    coin, no 'inr') it returns NaN and reports one 'Crypto Error'. *)
Theorem get_crypto_price_or_nan
    (get_json : string -> result (gmap string (gmap string Q)))
    (coin_id : string) (s : page) :
  let url := ("https://api.coingecko.com/api/v3/simple/price?ids=" ++ coin_id
              ++ "&vs_currencies=inr")%string in
  (exists (response : gmap string (gmap string Q)) (quotes : gmap string Q)
          (price : Q),
     get_json url = Ok response /\
     response !! coin_id = Some quotes /\ quotes !! "inr"%string = Some price /\
     _get_crypto_price get_json coin_id s = (Ok (Fin price), s)) \/
  (exists e : exn,
     _get_crypto_price get_json coin_id s = (Ok NaN, s ++ [Diag "Crypto Error" e]) /\
     (get_json url = Raise e \/
      exists response : gmap string (gmap string Q),
        get_json url = Ok response /\ e = KeyError /\
        (response !! coin_id = None \/
         exists quotes : gmap string Q,
           response !! coin_id = Some quotes /\ quotes !! "inr"%string = None))).
Proof.
  intros url. unfold _get_crypto_price, try_except. cbv zeta. fold url.
  destruct (get_json url) as [response | e] eqn:Hr.
  - rewrite bind_lift_ok. unfold getitem.
    destruct (response !! coin_id) as [quotes |] eqn:Hq.
    + rewrite bind_lift_ok.
      destruct (quotes !! "inr"%string) as [price |] eqn:Hp.
      * left. exists response, quotes, price. repeat split; assumption.
      * right. exists KeyError. split; [reflexivity |].
        right. exists response. split; [reflexivity |]. split; [reflexivity |].
        right. exists quotes. split; [exact Hq | exact Hp].
    + right. exists KeyError. split; [reflexivity |].
      right. exists response. split; [reflexivity |]. split; [reflexivity |].
      left. exact Hq.
  - right. exists e. split; [reflexivity | now left].
Qed.

(** ** Any slab table *)

(** X24.  Whatever table is stored under 'IND', as long as its rates are
    fractions and its finite bounds are not negative, the tax of moderate
    amounts is not negative and does not decrease when the income
    grows. *)
Theorem calculate_tax_monotone_any_table (self : FinancialGuru)
    (tables : gmap string TaxTable) (table : TaxTable) (i1 i2 deductions : Q) :
  tax_slabs self = Some tables -> tables !! "IND"%string = Some table ->
  nonneg_table table -> fractional_rates table ->
  moderate i1 -> moderate i2 -> moderate deductions -> i1 <= i2 ->
  exists t1 t2 : Q,
    returns (calculate_tax self i1 deductions) t1 /\
    returns (calculate_tax self i2 deductions) t2 /\
    0 <= t1 /\ t1 <= t2.
Proof.
  intros Hself Htable Hnonneg _ H1 H2 Hd H.
  destruct (tax_body_slab_walk self tables table i1 deductions
              Hself Htable Hnonneg H1 Hd) as (t1 & E1 & V1).
  destruct (tax_body_slab_walk self tables table i2 deductions
              Hself Htable Hnonneg H2 Hd) as (t2 & E2 & V2).
  exists t1, t2.
  split; [now apply returns_guarded_ok |].
  split; [now apply returns_guarded_ok |].
  rewrite V1, V2. split.
  - now apply slab_walk_lower.
  - apply slab_walk_monotone; [exact Hnonneg |].
    apply py_max_zero_monotone. lra.
Qed.

Lemma calculate_tax_monotone_any_table_witness :
  nonneg_table [(Finite 300000, 0); (Infinity, 1 # 10)] /\
  fractional_rates [(Finite 300000, 0); (Infinity, 1 # 10)] /\
  moderate 400000 /\ moderate 500000 /\ moderate 0 /\ 400000 <= 500000 /\
  exists t1 t2 : Q,
    returns (calculate_tax
               {| risk_profile := None; nifty50 := None;
                  tax_slabs := Some {[ "IND"%string :=
                                         [(Finite 300000, 0); (Infinity, 1 # 10)] ]} |}
               400000 0) t1 /\
    returns (calculate_tax
               {| risk_profile := None; nifty50 := None;
                  tax_slabs := Some {[ "IND"%string :=
                                         [(Finite 300000, 0); (Infinity, 1 # 10)] ]} |}
               500000 0) t2 /\
    0 <= t1 /\ t1 <= t2.
Proof.
  assert (Hn : nonneg_table [(Finite 300000, 0); (Infinity, 1 # 10)]).
  { repeat (constructor; [split; simpl; lra |]). constructor. }
  assert (Hf : fractional_rates [(Finite 300000, 0); (Infinity, 1 # 10)]).
  { repeat (constructor; [simpl; lra |]). constructor. }
  assert (H1 : moderate 400000) by (unfold moderate; lra).
  assert (H2 : moderate 500000) by (unfold moderate; lra).
  assert (H3 : moderate 0) by (unfold moderate; lra).
  split; [exact Hn |]. split; [exact Hf |]. split; [exact H1 |].
  split; [exact H2 |]. split; [exact H3 |]. split; [lra |].
  apply (calculate_tax_monotone_any_table
           {| risk_profile := None; nifty50 := None;
              tax_slabs := Some {[ "IND"%string :=
                                     [(Finite 300000, 0); (Infinity, 1 # 10)] ]} |}
           {[ "IND"%string := [(Finite 300000, 0); (Infinity, 1 # 10)] ]}
           [(Finite 300000, 0); (Infinity, 1 # 10)] 400000 500000 0);
    [reflexivity | reflexivity | exact Hn | exact Hf | exact H1 | exact H2
    | exact H3 | lra].
Defined.
